(** * Vale, package lint: the markup front end (lint/markup.go)

    The file embeds the HTML token walker [lintHTMLTokens] together with its
    helpers [getAttribute], [clearElements] and [updateCtx], and the four
    format adapters [lintHTML], [lintMarkdown], [lintRST] and [lintADoc].

    Conventions of the embedding.
    - Go strings and byte slices are [string] (sequences of bytes).
    - Go [int] is a 64-bit integer: a [Z] with the wrap-around written out.
    - The rendered stream is the list of tokens that [Tokenizer.Next] yields;
      the end of the list is the end of the input, where [Next] answers
      [ErrorToken] (io.EOF).
    - [Linter.lintText] and [Linter.lintProse] hand a block to the rule
      engine; the walker's own variables are not touched by them, so a call
      is recorded, with its arguments, in the order it is made.
    - Functions of other packages whose bodies are not part of lint/markup.go
      are the fields of the classes [Lib] (pure string functions) and [World]
      (files, processes, renderers); every theorem holds for all of them. *)

From Stdlib Require Import String Ascii List Bool ZArith Lia.
Import ListNotations.
Local Open Scope string_scope.
Local Open Scope bool_scope.
Local Open Scope list_scope.

(** ** Go integers *)

Module GoInt.

Definition wrap64 (z : Z) : Z := ((z + 2 ^ 63) mod 2 ^ 64 - 2 ^ 63)%Z.

Definition add (a b : Z) : Z := wrap64 (a + b).

End GoInt.

(** ** package strings, at the one-byte separator the source uses *)

Module strings.

Definition LF : ascii := ascii_of_nat 10.

(** [strings.Count(s, "\n")] *)
Fixpoint Count (s : string) (sep : ascii) : nat :=
  match s with
  | EmptyString => 0
  | String c r => (if Ascii.eqb c sep then 1 else 0) + Count r sep
  end.

(** [strings.Split(s, "\n")]: the pieces between separators, one more than
    there are separators. *)
Fixpoint Split (s : string) (sep : ascii) : list string :=
  match s with
  | EmptyString => [EmptyString]
  | String c r =>
      if Ascii.eqb c sep then EmptyString :: Split r sep
      else match Split r sep with
           | h :: t => String c h :: t
           | [] => [String c EmptyString]
           end
  end.

End strings.

(** ** package html (golang.org/x/net/html): tokens *)

Module html.

Inductive TokenType : Set :=
| ErrorToken
| TextToken
| StartTagToken
| EndTagToken
| SelfClosingTagToken
| CommentToken
| DoctypeToken.

Definition eqb (a b : TokenType) : bool :=
  match a, b with
  | ErrorToken, ErrorToken
  | TextToken, TextToken
  | StartTagToken, StartTagToken
  | EndTagToken, EndTagToken
  | SelfClosingTagToken, SelfClosingTagToken
  | CommentToken, CommentToken
  | DoctypeToken, DoctypeToken => true
  | _, _ => false
  end.

Record Attribute : Set := { Namespace : string; Key : string; Val : string }.

Record Token : Set := { Type_ : TokenType; Data : string; Attr : list Attribute }.

(** What [Tokenizer.Token] holds once [Next] has answered [ErrorToken]. *)
Definition eof : Token := {| Type_ := ErrorToken; Data := ""; Attr := [] |}.

End html.

Notation "a == b" := (html.eqb a b) (at level 70, no associativity).

(** ** package core *)

Module core.

Record File : Set := { Path : string; RealExt : string }.

(** Modelled from the spec: [core.StringInSlice] is declared outside
    lint/markup.go; the walker uses it to ask whether a tag is one of the
    designated skip tags, that is, whether the string occurs in the slice. *)
Definition StringInSlice (a : string) (slice : list string) : bool :=
  existsb (String.eqb a) slice.

Definition error := string.

(** A failure printed for the user: the error and the context it came with. *)
Definition Report : Set := (error * string)%type.

(** Modelled from the spec: [core.CheckError] is declared outside
    lint/markup.go.  The error table of the spec has an unreadable document
    and a renderer failure "reported once; pass aborts": the function answers
    whether there was no error, and reports the error when there is one. *)
Definition CheckError (err : option error) (context : string)
    (reported : list Report) : bool * list Report :=
  match err with
  | None => (true, reported)
  | Some e => (false, reported ++ [(e, context)])
  end.

End core.

(** ** The functions lint/markup.go calls and does not define *)

Class Lib : Type := {
  (** [strings.TrimSpace] *)
  TrimSpace : string -> string;
  (** [strings.Fields] *)
  Fields : string -> list string;
  (** [html.UnescapeString] *)
  UnescapeString : string -> string;
  (** [core.PrepText] *)
  PrepText : string -> string;
  (** [core.Substitute]: the context after the attempt, and whether the
      fragment was found *)
  Substitute : string -> string -> string * bool
}.

Class World : Type := {
  (** [ioutil.ReadFile] *)
  ReadFile : string -> string * option core.error;
  (** [exec.Command(name, args...)] with the given standard input, run to its
      end by [cmd.Run]: what it wrote to standard output, and the error of a
      spawn failure or a nonzero exit *)
  Run : string -> list string -> string -> string * option core.error;
  (** [reCodeBlock.ReplaceAll] *)
  reCodeBlock_ReplaceAll : string -> string -> string;
  (** [blackfriday.MarkdownOptions(b, renderer, options)] *)
  MarkdownOptions : string -> string;
  (** [html.NewTokenizer(bytes.NewReader(b))]: the tokens [Next] yields *)
  NewTokenizer : string -> list html.Token
}.

(** ** package lint: configuration *)

Definition rstArgs : list string :=
  ["--quiet"; "--halt=5"; "--link-stylesheet"; "--no-file-insertion";
   "--no-toc-backlinks"; "--no-footnote-backlinks"; "--no-section-numbering"].

Definition adocArgs : list string :=
  ["--no-header-footer"; "--quiet"; "--safe-mode"; "secure"; "-"].

Definition isDigit (c : ascii) : bool :=
  (48 <=? nat_of_ascii c)%nat && (nat_of_ascii c <=? 57)%nat.

(** [heading = regexp.MustCompile(`^h\d$`)], [heading.MatchString]: the
    whole string is an h and one ASCII digit. *)
Definition heading_MatchString (s : string) : bool :=
  match s with
  | String c (String d EmptyString) => Ascii.eqb c "h"%char && isDigit d
  | _ => false
  end.

Definition skipTags : list string := ["script"; "style"; "pre"; "code"; "tt"].

Definition skipClasses : list string := [].

(** ** Blocks and the calls into the rule engine *)

(** Modelled from the spec: [NewBlock] is declared in another file of the
    package; a block is the dispatch-ready unit made of the three values the
    walker passes: the context, the text and the scope (the kind tag). *)
Record Block : Set := NewBlock { Context : string; Text : string; Scope : string }.

(** Modelled from the spec: [Linter.lintText] and [Linter.lintProse] are
    declared in another file of the package.  Section 6, the downstream
    dispatch contract: the core invokes the handler with the document, the
    block and the line number for headings and list items, and with the
    document, the residual context, the text and the line number for prose. *)
Inductive Call : Set :=
| lintText (f : core.File) (b : Block) (lines : Z) (pad : Z)
| lintProse (f : core.File) (ctx : string) (txt : string) (lines : Z) (pad : Z).

(** ** The context tracker *)

Section Tracker.
Context {L : Lib}.

Definition updateCtx (ctx txt : string) (tokt : html.TokenType) : string :=
  if ((tokt == html.TextToken) || (tokt == html.CommentToken))
     && negb (txt =? "")
  then
    fold_left
      (fun ctx s =>
         let (ctx, found) := Substitute ctx s in
         if negb found
         then fold_left (fun ctx w => fst (Substitute ctx w)) (Fields s) ctx
         else ctx)
      (strings.Split txt strings.LF) ctx
  else ctx.

Definition getAttribute (tok : html.Token) (key : string) : string :=
  match find (fun a => html.Key a =? key) (html.Attr tok) with
  | Some a => html.Val a
  | None => ""
  end.

Definition clearElements (ctx : string) (tok : html.Token) : string :=
  if (html.Data tok =? "img") || (html.Data tok =? "a")
  then
    fold_left
      (fun ctx a =>
         if (html.Key a =? "alt") || (html.Key a =? "href")
         then updateCtx ctx (html.Val a) html.TextToken
         else ctx)
      (html.Attr tok) ctx
  else ctx.

End Tracker.

(** ** The token walker *)

(** The variables of [lintHTMLTokens] that live across iterations, and the
    calls made so far.  [txt], [skip], [tokt] and [tok] are assigned afresh
    at the top of every iteration. *)
Record Walker : Set := {
  attr : string;
  tag : string;
  inBlock : bool;
  ctx : string;
  calls : list Call
}.

Section Walk.
Context {L : Lib}.

Definition txtOf (tok : html.Token) : string :=
  PrepText (UnescapeString (TrimSpace (html.Data tok))).

Definition skipOf (attr : string) (txt : string) : bool :=
  core.StringInSlice txt skipTags || core.StringInSlice attr skipClasses.

(** One turn of the [for] loop; [None] is the [break]. *)
Definition iteration (f : core.File) (lines : Z) (w : Walker)
    (tok : html.Token) : option Walker :=
  let tokt := html.Type_ tok in
  let txt := txtOf tok in
  let skip := skipOf (attr w) txt in
  if tokt == html.ErrorToken then None
  else
    let '(inBlock', tag', calls') :=
      if (tokt == html.StartTagToken) && skip then
        (true, tag w, calls w)
      else if skip && inBlock w then
        (false, tag w, calls w)
      else if tokt == html.StartTagToken then
        (inBlock w, txt, calls w)
      else if (tokt == html.TextToken) && heading_MatchString (tag w) then
        (inBlock w, tag w,
         calls w ++ [lintText f (NewBlock (ctx w) txt ("text.heading" ++ core.RealExt f)%string) lines 0])
      else if (tokt == html.TextToken) && (tag w =? "li") then
        (inBlock w, tag w,
         calls w ++ [lintText f (NewBlock (ctx w) txt ("text.list" ++ core.RealExt f)%string) lines 0])
      else if (tokt == html.TextToken) && negb (inBlock w) && negb skip
              && negb (txt =? "") then
        (inBlock w, tag w, calls w ++ [lintProse f (ctx w) txt lines 0])
      else
        (inBlock w, tag w, calls w) in
    Some {| attr := getAttribute tok "class";
            tag := tag';
            inBlock := inBlock';
            ctx := updateCtx (clearElements (ctx w) tok) txt tokt;
            calls := calls' |}.

(** The [for] loop over the tokens of the stream. *)
Fixpoint loop (f : core.File) (lines : Z) (toks : list html.Token)
    (w : Walker) : Walker :=
  match toks with
  | [] => w
  | tok :: rest =>
      match iteration f lines w tok with
      | None => w
      | Some w' => loop f lines rest w'
      end
  end.

(** [lines := strings.Count(ctx, "\n") + 1 + offset] *)
Definition linesOf (ctx : string) (offset : Z) : Z :=
  GoInt.add (GoInt.add (Z.of_nat (strings.Count ctx strings.LF)) 1) offset.

(** The walker's variables as declared, before the first iteration. *)
Definition start (rawBytes : string) : Walker :=
  {| attr := ""; tag := ""; inBlock := false; ctx := PrepText rawBytes; calls := [] |}.

(** [lintHTMLTokens] on the tokens of the rendered stream: the calls into
    the rule engine, in order. *)
Definition walkTokens (f : core.File) (rawBytes : string)
    (toks : list html.Token) (offset : Z) : list Call :=
  let w := start rawBytes in
  calls (loop f (linesOf (ctx w) offset) toks w).

End Walk.

(** ** The format adapters *)

(** What one lint pass over one document leaves behind. *)
Record Pass : Set := { dispatched : list Call; reported : list core.Report }.

Section Adapters.
Context {L : Lib} {W : World}.

Definition lintHTMLTokens (f : core.File) (rawBytes fBytes : string)
    (offset : Z) : list Call :=
  walkTokens f rawBytes (NewTokenizer fBytes) offset.

Definition lintHTML (f : core.File) : Pass :=
  let (b, err) := ReadFile (core.Path f) in
  let (ok, reported) := core.CheckError err (core.Path f) [] in
  if negb ok then {| dispatched := []; reported := reported |}
  else {| dispatched := lintHTMLTokens f b b 0; reported := reported |}.

Definition lintMarkdown (f : core.File) : Pass :=
  let (b, err) := ReadFile (core.Path f) in
  let (ok, reported) := core.CheckError err (core.Path f) [] in
  if negb ok then {| dispatched := []; reported := reported |}
  else {| dispatched := lintHTMLTokens f b (MarkdownOptions b) 0;
          reported := reported |}.

Definition lintRST (f : core.File) (python rst2html : string) : Pass :=
  let (b, err) := ReadFile (core.Path f) in
  let (ok, reported) := core.CheckError err (core.Path f) [] in
  if negb ok then {| dispatched := []; reported := reported |}
  else
    let (out, runErr) :=
      Run python (rst2html :: rstArgs) (reCodeBlock_ReplaceAll b "::") in
    let (ok, reported) := core.CheckError runErr (core.Path f) reported in
    if ok then {| dispatched := lintHTMLTokens f b out 0; reported := reported |}
    else {| dispatched := []; reported := reported |}.

Definition lintADoc (f : core.File) (asciidoctor : string) : Pass :=
  let (b, err) := ReadFile (core.Path f) in
  let (ok, reported) := core.CheckError err (core.Path f) [] in
  if negb ok then {| dispatched := []; reported := reported |}
  else
    let (out, runErr) := Run asciidoctor adocArgs b in
    let (ok, reported) := core.CheckError runErr (core.Path f) reported in
    if ok then {| dispatched := lintHTMLTokens f b out 0; reported := reported |}
    else {| dispatched := []; reported := reported |}.

End Adapters.

(** ** Element nesting of a token stream

    The walker keeps no stack.  To speak of a token that lies inside an
    element, the elements still open after a run of tokens are computed here,
    innermost first: a start tag opens its element, an end tag closes the
    nearest open element of its name together with what was opened inside. *)

Fixpoint closeElem (name : string) (open : list string) : list string :=
  match open with
  | [] => []
  | e :: rest => if e =? name then rest else closeElem name rest
  end.

Fixpoint openElems (toks : list html.Token) (open : list string) : list string :=
  match toks with
  | [] => open
  | tok :: rest =>
      match html.Type_ tok with
      | html.StartTagToken => openElems rest (html.Data tok :: open)
      | html.EndTagToken =>
          openElems rest
            (if existsb (String.eqb (html.Data tok)) open
             then closeElem (html.Data tok) open else open)
      | _ => openElems rest open
      end
  end.

(** Some open element is a designated skip tag. *)
Definition insideSkip (toks : list html.Token) : bool :=
  existsb (fun e => core.StringInSlice e skipTags) (openElems toks []).

(** The innermost open element, if any. *)
Definition innermost (toks : list html.Token) : option string :=
  hd_error (openElems toks []).

(** No token of the run is an [ErrorToken]: the loop reaches what follows. *)
Definition live (toks : list html.Token) : bool :=
  forallb (fun tok => negb (html.Type_ tok == html.ErrorToken)) toks.

(** ** Plain text: the library functions on ASCII words

    An executable instance of [Lib] for running the walker on examples.  On
    text made of ASCII letters, digits, blanks and line feeds (no ampersand,
    no carriage return, no typographic quote) the library functions do what
    is written here: there is no entity to unescape and nothing to
    normalise, and white space is the ASCII white space. *)

Module Plain.

Definition isSpace (c : ascii) : bool :=
  match nat_of_ascii c with
  | 9 | 10 | 11 | 12 | 13 | 32 => true
  | _ => false
  end.

Fixpoint trimLeft (s : string) : string :=
  match s with
  | EmptyString => EmptyString
  | String c r => if isSpace c then trimLeft r else s
  end.

Fixpoint trimRight (s : string) : string :=
  match s with
  | EmptyString => EmptyString
  | String c r =>
      match trimRight r with
      | EmptyString => if isSpace c then EmptyString else String c EmptyString
      | r' => String c r'
      end
  end.

Definition TrimSpace (s : string) : string := trimRight (trimLeft s).

(** The words of [s]; [cur] is the word being read, reversed. *)
Fixpoint fields (s : string) (cur : list ascii) : list string :=
  let flush := match cur with
               | [] => []
               | _ => [string_of_list_ascii (rev cur)]
               end in
  match s with
  | EmptyString => flush
  | String c r => if isSpace c then flush ++ fields r [] else fields r (c :: cur)
  end.

Definition Fields (s : string) : list string := fields s [].

(** What is left of [s] after the prefix [p], when [p] is a prefix. *)
Fixpoint dropPrefix (p s : string) : option string :=
  match p, s with
  | EmptyString, _ => Some s
  | String a p', String b s' => if Ascii.eqb a b then dropPrefix p' s' else None
  | String _ _, EmptyString => None
  end.

(** What is left of [s] after the first occurrence of [sub]. *)
Fixpoint after (sub s : string) : option string :=
  match dropPrefix sub s with
  | Some r => Some r
  | None =>
      match s with
      | EmptyString => None
      | String _ s' => after sub s'
      end
  end.

(** Modelled from the spec: [core.Substitute] is declared outside
    lint/markup.go.  Section 4.4, step 1: "Search for fragment as an exact
    substring at/after the cursor.  If found, remove it and everything
    preceding it from the buffer"; a fragment that is not found leaves the
    buffer as it was. *)
Definition Substitute (src sub : string) : string * bool :=
  match after sub src with
  | Some r => (r, true)
  | None => (src, false)
  end.

(** Modelled from the spec: [core.PrepText] is declared outside
    lint/markup.go; it normalises white space and typographic characters and
    keeps the line count, so it leaves plain text as it is. *)
Definition PrepText (s : string) : string := s.

(** Plain text holds no character reference. *)
Definition UnescapeString (s : string) : string := s.

Definition lib : Lib :=
  Build_Lib TrimSpace Fields UnescapeString PrepText Substitute.

End Plain.

(** ** Tokens and documents of the examples *)

Definition startTag (name : string) : html.Token :=
  {| html.Type_ := html.StartTagToken; html.Data := name; html.Attr := [] |}.

Definition endTag (name : string) : html.Token :=
  {| html.Type_ := html.EndTagToken; html.Data := name; html.Attr := [] |}.

Definition text (s : string) : html.Token :=
  {| html.Type_ := html.TextToken; html.Data := s; html.Attr := [] |}.

Definition comment (s : string) : html.Token :=
  {| html.Type_ := html.CommentToken; html.Data := s; html.Attr := [] |}.

Definition page : core.File := {| core.Path := "page.html"; core.RealExt := ".html" |}.

(** The stream of [<pre><code>x</code>y</pre>] up to the text [y]. *)
Definition nestedSkip : list html.Token :=
  [startTag "pre"; startTag "code"; text "x"; endTag "code"].

Definition nestedSkipRaw : string := "<pre><code>x</code>y</pre>".

(** The stream of [<li><code>foo</code></li>] up to the text [foo]. *)
Definition codeInItem : list html.Token := [startTag "li"; startTag "code"].

Definition codeInItemRaw : string := "<li><code>foo</code></li>".

(** The stream of [<h1><b>x</b>y</h1>] up to the text [y]. *)
Definition boldInHeading : list html.Token :=
  [startTag "h1"; startTag "b"; text "x"; endTag "b"].

Definition boldInHeadingRaw : string := "<h1><b>x</b>y</h1>".

(** A fragment of two lines, [a b] and [q]. *)
Definition twoLines : string := ("a b" ++ String strings.LF "q")%string.

(** An [img] element with a source, an alternative text and a title. *)
Definition logo : html.Token :=
  {| html.Type_ := html.SelfClosingTagToken;
     html.Data := "img";
     html.Attr :=
       [ {| html.Namespace := ""; html.Key := "src"; html.Val := "logo.png" |};
         {| html.Namespace := ""; html.Key := "alt"; html.Val := "Vale logo" |};
         {| html.Namespace := ""; html.Key := "title"; html.Val := "Vale" |} ] |}.

Definition notes : core.File := {| core.Path := "notes.rst"; core.RealExt := ".rst" |}.

(** A machine on which no renderer is installed.  Every document reads as
    the one line [Plain words], which holds no directive to rewrite, which
    Markdown renders as one paragraph and which the tokenizer yields as one
    text token; every command fails to start. *)
Definition noRenderer : World :=
  Build_World
    (fun _ => ("Plain words", None))
    (fun _ _ _ => ("", Some "executable file not found in $PATH"))
    (fun b _ => b)
    (fun b => ("<p>" ++ b ++ "</p>" ++ String strings.LF "")%string)
    (fun b => if (b =? "Plain words")%string then [text b]
              else [startTag "p"; text "Plain words"; endTag "p";
                    text (String strings.LF "")]).

(** ** What a call carries *)

Definition isProse (c : Call) : bool :=
  match c with
  | lintProse _ _ _ _ _ => true
  | lintText _ _ _ _ => false
  end.

Definition callText (c : Call) : string :=
  match c with
  | lintText _ b _ _ => Text b
  | lintProse _ _ txt _ _ => txt
  end.

Definition callLines (c : Call) : Z :=
  match c with
  | lintText _ _ lines _ => lines
  | lintProse _ _ _ lines _ => lines
  end.

Definition callPad (c : Call) : Z :=
  match c with
  | lintText _ _ _ pad => pad
  | lintProse _ _ _ _ pad => pad
  end.

(** The kind tag of a call (the scope of a block, nothing for prose), its
    text and its position: all of a call but the residual context. *)
Definition shape (c : Call) : option string * string * Z * Z :=
  match c with
  | lintText _ b lines pad => (Some (Scope b), Text b, lines, pad)
  | lintProse _ _ txt lines pad => (None, txt, lines, pad)
  end.

(** [Lib] with another [core.Substitute]. *)
Definition withSubstitute (L : Lib) (sub : string -> string -> string * bool) : Lib :=
  Build_Lib (@TrimSpace L) (@Fields L) (@UnescapeString L) (@PrepText L) sub.

(** ** Consumption as the spec words it

    Section 4.4 of the spec: an exact match first, then the words one by
    one, a word that is not found being skipped. *)

Section Consume.
Context {L : Lib}.

Fixpoint consumeWords (ctx : string) (ws : list string) : string :=
  match ws with
  | [] => ctx
  | w :: rest =>
      let (ctx', found) := Substitute ctx w in
      consumeWords (if found then ctx' else ctx) rest
  end.

(** The operation on one fragment taken whole. *)
Definition consumeWhole (ctx fragment : string) : string :=
  let (ctx', found) := Substitute ctx fragment in
  if found then ctx' else consumeWords ctx (Fields fragment).

(** The operation on a fragment taken line by line. *)
Definition consumeLines (ctx fragment : string) : string :=
  fold_left consumeWhole (strings.Split fragment strings.LF) ctx.

(** The walker reads the string as it stands: trimming, unescaping and
    normalising leave it unchanged (a plain ASCII word is such a string). *)
Definition kept (s : string) : Prop :=
  PrepText (UnescapeString (TrimSpace s)) = s.

(** The attribute values [clearElements] feeds to the context. *)
Definition foldedValues (tok : html.Token) : list string :=
  map html.Val
    (filter (fun a => (html.Key a =? "alt") || (html.Key a =? "href"))
       (html.Attr tok)).

(** What one turn of the loop adds to the calls. *)
Definition emitted (f : core.File) (lines : Z) (w : Walker) (tok : html.Token) : list Call :=
  let txt := txtOf tok in
  let skip := core.StringInSlice txt skipTags in
  if negb (html.Type_ tok == html.TextToken) then []
  else if skip && inBlock w then []
  else if heading_MatchString (tag w) then
    [lintText f (NewBlock (ctx w) txt ("text.heading" ++ core.RealExt f)%string) lines 0]
  else if tag w =? "li" then
    [lintText f (NewBlock (ctx w) txt ("text.list" ++ core.RealExt f)%string) lines 0]
  else if negb (inBlock w) && negb skip && negb (txt =? "") then
    [lintProse f (ctx w) txt lines 0]
  else [].

End Consume.

(** ** Views used by the further properties *)

(** [l1] is [l2] with some elements left out, the order kept. *)
Inductive Subseq {A : Type} : list A -> list A -> Prop :=
| Subseq_nil : Subseq [] []
| Subseq_skip (x : A) (l1 l2 : list A) : Subseq l1 l2 -> Subseq l1 (x :: l2)
| Subseq_take (x : A) (l1 l2 : list A) : Subseq l1 l2 -> Subseq (x :: l1) (x :: l2).

Definition isText (tok : html.Token) : bool :=
  html.Type_ tok == html.TextToken.

Definition callFile (c : Call) : core.File :=
  match c with
  | lintText f _ _ _ => f
  | lintProse f _ _ _ _ => f
  end.

(** The context a call hands over: the context of the block, or the
    residual context of a prose call. *)
Definition callContext (c : Call) : string :=
  match c with
  | lintText _ b _ _ => Context b
  | lintProse _ ctx _ _ _ => ctx
  end.

(** The kind tag and the text of a call. *)
Definition kindText (c : Call) : option string * string :=
  match c with
  | lintText _ b _ _ => (Some (Scope b), Text b)
  | lintProse _ _ txt _ _ => (None, txt)
  end.

(** The attributes [clearElements] looks for. *)
Definition foldable (a : html.Attribute) : bool :=
  (html.Key a =? "alt") || (html.Key a =? "href").

(** The token without the attributes the walker has no use for: an [img] or
    [a] token keeps its [alt] and [href] attributes, any other token none. *)
Definition strip (tok : html.Token) : html.Token :=
  {| html.Type_ := html.Type_ tok;
     html.Data := html.Data tok;
     html.Attr := if (html.Data tok =? "img") || (html.Data tok =? "a")
                  then filter foldable (html.Attr tok) else [] |}.

(** Two walkers that differ at most in the last class attribute seen. *)
Definition sameButAttr (w1 w2 : Walker) : Prop :=
  tag w1 = tag w2 /\ inBlock w1 = inBlock w2 /\ ctx w1 = ctx w2 /\
  calls w1 = calls w2.

Section Views.
Context {L : Lib}.

(** What one token does to the context: the last two lines of the loop. *)
Definition feed (c : string) (tok : html.Token) : string :=
  updateCtx (clearElements c tok) (txtOf tok) (html.Type_ tok).

(** An end tag, a self-closing tag or a doctype whose name is neither a skip
    tag nor [img] nor [a]. *)
Definition inert (tok : html.Token) : bool :=
  ((html.Type_ tok == html.EndTagToken)
   || (html.Type_ tok == html.SelfClosingTagToken)
   || (html.Type_ tok == html.DoctypeToken))
  && negb (core.StringInSlice (txtOf tok) skipTags)
  && negb ((html.Data tok =? "img") || (html.Data tok =? "a")).

(** A text token with a text that is neither empty nor a skip tag name. *)
Definition visible (tok : html.Token) : bool :=
  isText tok && negb (txtOf tok =? "")
  && negb (core.StringInSlice (txtOf tok) skipTags).

End Views.

(** A machine on which the document cannot be read; nothing else is
    reached on it. *)
Definition noFile : World :=
  Build_World
    (fun _ => ("", Some "no such file or directory"))
    (fun _ _ _ => ("", None))
    (fun b _ => b)
    (fun b => b)
    (fun _ => []).

(** A link with a class, a target and a title. *)
Definition link : html.Token :=
  {| html.Type_ := html.StartTagToken;
     html.Data := "a";
     html.Attr :=
       [ {| html.Namespace := ""; html.Key := "class"; html.Val := "code" |};
         {| html.Namespace := ""; html.Key := "href"; html.Val := "docs" |};
         {| html.Namespace := ""; html.Key := "class"; html.Val := "second" |} ] |}.

(** * Properties *)

Section WalkerFacts.
Context {L : Lib}.
Variables (f : core.File) (lines : Z).

Lemma skipOf_txt (a txt : string) :
  skipOf a txt = core.StringInSlice txt skipTags.
Proof. unfold skipOf. simpl. apply orb_false_r. Qed.

Lemma iteration_break (w : Walker) (tok : html.Token) :
  html.Type_ tok = html.ErrorToken -> iteration f lines w tok = None.
Proof. intros E. unfold iteration. rewrite E. reflexivity. Qed.

Lemma iteration_eof (w : Walker) : iteration f lines w html.eof = None.
Proof. reflexivity. Qed.

Lemma iteration_turn (w : Walker) (tok : html.Token) :
  (html.Type_ tok == html.ErrorToken) = false ->
  exists w',
    iteration f lines w tok = Some w' /\
    attr w' = getAttribute tok "class" /\
    tag w' = (if (html.Type_ tok == html.StartTagToken)
                 && negb (core.StringInSlice (txtOf tok) skipTags)
              then txtOf tok else tag w) /\
    inBlock w' = (if core.StringInSlice (txtOf tok) skipTags
                  then html.Type_ tok == html.StartTagToken else inBlock w) /\
    ctx w' = updateCtx (clearElements (ctx w) tok) (txtOf tok) (html.Type_ tok) /\
    calls w' = calls w ++ emitted f lines w tok.
Proof.
  intros Hlive. unfold iteration, emitted. rewrite Hlive, skipOf_txt.
  destruct (html.Type_ tok) eqn:Ety; try discriminate Hlive; cbn [html.eqb andb negb];
    destruct (core.StringInSlice (txtOf tok) skipTags) eqn:Eskip;
    destruct (inBlock w) eqn:Eblk; cbn [andb negb];
    try (eexists; repeat split; cbn; rewrite ?app_nil_r; reflexivity);
    destruct (heading_MatchString (tag w)); cbn [andb negb];
    try (eexists; repeat split; cbn; rewrite ?app_nil_r; reflexivity);
    destruct (tag w =? "li")%string; cbn [andb negb];
    try (eexists; repeat split; cbn; rewrite ?app_nil_r; reflexivity);
    destruct (txtOf tok =? "")%string; cbn [andb negb];
    eexists; repeat split; cbn; rewrite ?app_nil_r; reflexivity.
Qed.

Lemma live_app (pre post : list html.Token) :
  live (pre ++ post) = live pre && live post.
Proof. apply forallb_app. Qed.

Lemma loop_app (pre post : list html.Token) (w : Walker) :
  live pre = true ->
  loop f lines (pre ++ post) w = loop f lines post (loop f lines pre w).
Proof.
  revert w. induction pre as [|tok pre IH]; intros w Hlive; [reflexivity|].
  cbn in Hlive. apply andb_true_iff in Hlive as [Htok Hpre].
  apply negb_true_iff in Htok.
  destruct (iteration_turn w tok Htok) as (w' & Hit & _).
  cbn. rewrite Hit. now apply IH.
Qed.

Lemma loop_snoc (pre : list html.Token) (tok : html.Token) (w : Walker) :
  live pre = true ->
  loop f lines (pre ++ [tok]) w =
  match iteration f lines (loop f lines pre w) tok with
  | Some w' => w'
  | None => loop f lines pre w
  end.
Proof.
  intros Hlive. rewrite loop_app by assumption. cbn.
  now destruct (iteration f lines (loop f lines pre w) tok).
Qed.

(** The loop stops at the first [ErrorToken]. *)
Lemma loop_stop (pre post : list html.Token) (e : html.Token) (w : Walker) :
  live pre = true -> html.Type_ e = html.ErrorToken ->
  loop f lines (pre ++ e :: post) w = loop f lines pre w.
Proof.
  intros Hlive He. rewrite loop_app by assumption. cbn.
  now rewrite iteration_break.
Qed.

(** Calls are only ever added. *)
Lemma loop_calls_grow (toks : list html.Token) (w : Walker) :
  exists new, calls (loop f lines toks w) = calls w ++ new.
Proof.
  revert w. induction toks as [|tok toks IH]; intros w.
  - exists []. cbn. now rewrite app_nil_r.
  - cbn. destruct (html.Type_ tok == html.ErrorToken) eqn:E.
    + unfold iteration. rewrite E. exists []. now rewrite app_nil_r.
    + destruct (iteration_turn w tok E) as (w' & Hit & _ & _ & _ & _ & Hc).
      rewrite Hit. destruct (IH w') as [new Hnew].
      exists (emitted f lines w tok ++ new). now rewrite Hnew, Hc, app_assoc.
Qed.

End WalkerFacts.

Section FlagAndLines.
Context {L : Lib}.
Variables (f : core.File) (lines : Z).

(** The flag is decided by the last skip-qualifying token alone. *)
Lemma flag_is_last_qualifying (toks : list html.Token) (w : Walker) :
  live toks = true ->
  inBlock (loop f lines toks w) =
  match find (fun tok => core.StringInSlice (txtOf tok) skipTags) (rev toks) with
  | Some tok => html.Type_ tok == html.StartTagToken
  | None => inBlock w
  end.
Proof.
  induction toks as [|tok pre IH] using rev_ind; intros Hlive; [reflexivity|].
  rewrite live_app in Hlive. apply andb_true_iff in Hlive as [Hpre Htok].
  cbn in Htok. rewrite andb_true_r in Htok. apply negb_true_iff in Htok.
  rewrite loop_snoc by assumption.
  destruct (iteration_turn f lines (loop f lines pre w) tok Htok)
    as (w' & Hit & _ & _ & Hblk & _).
  rewrite Hit, Hblk, rev_app_distr. cbn [rev app find].
  destruct (core.StringInSlice (txtOf tok) skipTags); [reflexivity|].
  now apply IH.
Qed.

Lemma emitted_lines (w : Walker) (tok : html.Token) :
  Forall (fun c => callLines c = lines /\ callPad c = 0%Z) (emitted f lines w tok).
Proof.
  unfold emitted.
  repeat match goal with
         | |- context [if ?b then _ else _] => destruct b
         end; repeat constructor.
Qed.

Lemma loop_lines (toks : list html.Token) (w : Walker) :
  Forall (fun c => callLines c = lines /\ callPad c = 0%Z) (calls w) ->
  Forall (fun c => callLines c = lines /\ callPad c = 0%Z) (calls (loop f lines toks w)).
Proof.
  revert w. induction toks as [|tok toks IH]; intros w Hw; [exact Hw|].
  cbn. destruct (html.Type_ tok == html.ErrorToken) eqn:E.
  - unfold iteration. now rewrite E.
  - destruct (iteration_turn f lines w tok E) as (w' & Hit & _ & _ & _ & _ & Hc).
    rewrite Hit. apply IH. rewrite Hc. apply Forall_app. split; [exact Hw|].
    apply emitted_lines.
Qed.

End FlagAndLines.

Lemma wrap64_small (z : Z) :
  (- 2 ^ 63 <= z < 2 ^ 63)%Z -> GoInt.wrap64 z = z.
Proof.
  intros Hz. unfold GoInt.wrap64. rewrite Z.mod_small; lia.
Qed.

Lemma wrap64_add_l (a b : Z) :
  GoInt.wrap64 (GoInt.wrap64 a + b) = GoInt.wrap64 (a + b).
Proof.
  unfold GoInt.wrap64.
  replace ((a + 2 ^ 63) mod 2 ^ 64 - 2 ^ 63 + b + 2 ^ 63)%Z
    with ((a + 2 ^ 63) mod 2 ^ 64 + b)%Z by lia.
  rewrite Zplus_mod_idemp_l. f_equal. f_equal. lia.
Qed.

Section Lines.
Context {L : Lib}.

(** C8.  Every call of one pass of [lintHTMLTokens], to [lintText] and to
    [lintProse] alike, carries one and the same line number: the value
    [lines] computed before the loop, the number of line feeds of the
    normalised raw source plus one plus the offset in Go's [int] arithmetic
    (the plain sum whenever it fits 64 bits), whatever the tokens are. *)
Theorem line_argument_constant (f : core.File) (rawBytes : string)
    (toks : list html.Token) (offset : Z) :
  Forall
    (fun c => callLines c =
              GoInt.wrap64
                (Z.of_nat (strings.Count (PrepText rawBytes) strings.LF) + 1 + offset))
    (walkTokens f rawBytes toks offset) /\
  ((- 2 ^ 63 <=
    Z.of_nat (strings.Count (PrepText rawBytes) strings.LF) + 1 + offset < 2 ^ 63)%Z ->
   Forall
     (fun c => callLines c =
               (Z.of_nat (strings.Count (PrepText rawBytes) strings.LF) + 1 + offset)%Z)
     (walkTokens f rawBytes toks offset)).
Proof.
  remember (Z.of_nat (strings.Count (PrepText rawBytes) strings.LF)) as n eqn:En.
  assert (Hall : Forall (fun c => callLines c = GoInt.wrap64 (n + 1 + offset))
                   (walkTokens f rawBytes toks offset)).
  { unfold walkTokens.
    assert (Hl : linesOf (ctx (start rawBytes)) offset = GoInt.wrap64 (n + 1 + offset)).
    { unfold linesOf, GoInt.add. cbn [ctx start]. rewrite <- En. apply wrap64_add_l. }
    rewrite Hl.
    eapply Forall_impl;
      [|apply (loop_lines f (GoInt.wrap64 (n + 1 + offset)) toks (start rawBytes));
        constructor].
    now intros c [Hc _]. }
  split; [exact Hall|].
  intros Hfit. rewrite wrap64_small in Hall by exact Hfit. exact Hall.
Qed.

(** C7.  The walk over a finite stream is a total function of the stream.
    It stops at the first [ErrorToken] (the end of the input or a decoding
    failure): the tokens behind it are never looked at, and the calls made
    before it are the result as they are.  Calls once made are kept however
    the walk goes on, and the stop is not reported: a pass over a readable
    HTML document reports nothing, with whatever blocks were dispatched. *)
Theorem walk_stops_at_error (f : core.File) (rawBytes : string)
    (pre post : list html.Token) (e : html.Token) (offset : Z) :
  live pre = true -> html.Type_ e = html.ErrorToken ->
  walkTokens f rawBytes (pre ++ e :: post) offset = walkTokens f rawBytes pre offset /\
  walkTokens f rawBytes (pre ++ [html.eof]) offset = walkTokens f rawBytes pre offset /\
  (exists new,
     walkTokens f rawBytes (pre ++ post) offset = walkTokens f rawBytes pre offset ++ new) /\
  (forall (W : World) (b : string),
     ReadFile (core.Path f) = (b, None) ->
     NewTokenizer b = pre ++ e :: post ->
     lintHTML f = {| dispatched := walkTokens f b pre 0; reported := [] |}).
Proof.
  intros Hlive He. unfold walkTokens.
  repeat split.
  - now rewrite loop_stop.
  - now rewrite loop_stop.
  - rewrite loop_app by assumption. apply loop_calls_grow.
  - intros W b Hread Htok. unfold lintHTML, lintHTMLTokens, walkTokens.
    rewrite Hread. cbn. rewrite Htok. now rewrite loop_stop.
Qed.

End Lines.

Section WalkInvariants.
Context {L : Lib}.
Variables (f : core.File) (lines : Z).

Lemma emitted_not_skip_prose (w : Walker) (tok : html.Token) :
  Forall (fun c => isProse c = true ->
                   core.StringInSlice (callText c) skipTags = false)
    (emitted f lines w tok).
Proof.
  unfold emitted.
  destruct (negb (html.Type_ tok == html.TextToken)); [constructor|].
  destruct (core.StringInSlice (txtOf tok) skipTags) eqn:Eskip;
    destruct (inBlock w); cbn [andb negb];
    try (destruct (heading_MatchString (tag w));
         [repeat constructor; discriminate|];
         destruct (tag w =? "li")%string;
         [repeat constructor; discriminate|]);
    try (destruct (txtOf tok =? "")%string; cbn [negb]);
    repeat constructor; intros _; exact Eskip.
Qed.

Lemma loop_not_skip_prose (toks : list html.Token) (w : Walker) :
  Forall (fun c => isProse c = true ->
                   core.StringInSlice (callText c) skipTags = false) (calls w) ->
  Forall (fun c => isProse c = true ->
                   core.StringInSlice (callText c) skipTags = false)
    (calls (loop f lines toks w)).
Proof.
  revert w. induction toks as [|tok toks IH]; intros w Hw; [exact Hw|].
  cbn. destruct (html.Type_ tok == html.ErrorToken) eqn:E.
  - unfold iteration. now rewrite E.
  - destruct (iteration_turn f lines w tok E) as (w' & Hit & _ & _ & _ & _ & Hc).
    rewrite Hit. apply IH. rewrite Hc. apply Forall_app. split; [exact Hw|].
    apply emitted_not_skip_prose.
Qed.

End WalkInvariants.

Section Classification.
Context {L : Lib}.
Variables (f : core.File) (lines : Z).

(** The walker after one more token, in terms of the walker before it. *)
Lemma snoc_turn (pre : list html.Token) (tok : html.Token) (w : Walker) :
  live pre = true -> (html.Type_ tok == html.ErrorToken) = false ->
  tag (loop f lines (pre ++ [tok]) w) =
    (if (html.Type_ tok == html.StartTagToken)
        && negb (core.StringInSlice (txtOf tok) skipTags)
     then txtOf tok else tag (loop f lines pre w)) /\
  inBlock (loop f lines (pre ++ [tok]) w) =
    (if core.StringInSlice (txtOf tok) skipTags
     then html.Type_ tok == html.StartTagToken
     else inBlock (loop f lines pre w)) /\
  ctx (loop f lines (pre ++ [tok]) w) =
    updateCtx (clearElements (ctx (loop f lines pre w)) tok) (txtOf tok)
      (html.Type_ tok) /\
  calls (loop f lines (pre ++ [tok]) w) =
    calls (loop f lines pre w) ++ emitted f lines (loop f lines pre w) tok.
Proof.
  intros Hlive Htok. rewrite loop_snoc by exact Hlive.
  destruct (iteration_turn f lines (loop f lines pre w) tok Htok)
    as (w' & Hit & _ & Htag & Hblk & Hctx & Hcalls).
  rewrite Hit. auto.
Qed.

Lemma StringInSlice_In (a : string) (slice : list string) :
  core.StringInSlice a slice = true <-> In a slice.
Proof.
  unfold core.StringInSlice. rewrite existsb_exists. split.
  - intros (x & Hin & Heq). apply String.eqb_eq in Heq. now subst.
  - intros Hin. exists a. split; [exact Hin|apply String.eqb_refl].
Qed.

(** C5.  The skip state of the walker is the one boolean [inBlock], not a
    stack.  After any run of tokens it is decided by the last skip-qualifying
    token of the run alone: set when that token is a start tag, clear when it
    is any other token, and as it was when the run has none.  So a start tag
    of a skip-qualifying element sets it and the next skip-qualifying
    boundary clears it, however many skip elements were entered before:
    nested skip regions are not told apart. *)
Theorem skip_flag_single_boolean (toks : list html.Token) (w : Walker) :
  live toks = true ->
  inBlock (loop f lines toks w) =
    match find (fun tok => core.StringInSlice (txtOf tok) skipTags) (rev toks) with
    | Some tok => html.Type_ tok == html.StartTagToken
    | None => inBlock w
    end /\
  (forall tok,
     (html.Type_ tok == html.ErrorToken) = false ->
     core.StringInSlice (txtOf tok) skipTags = true ->
     inBlock (loop f lines (toks ++ [tok]) w) =
       (html.Type_ tok == html.StartTagToken)) /\
  (forall tok,
     (html.Type_ tok == html.ErrorToken) = false ->
     core.StringInSlice (txtOf tok) skipTags = false ->
     inBlock (loop f lines (toks ++ [tok]) w) = inBlock (loop f lines toks w)).
Proof.
  intros Hlive. split; [now apply flag_is_last_qualifying|].
  split; intros tok Htok Hskip;
    destruct (snoc_turn toks tok w Hlive Htok) as (_ & Hblk & _);
    now rewrite Hblk, Hskip.
Qed.

(** C1 (as amended).  A text token whose nearest skip-qualifying token
    before it is a start tag -- it stands in a skip element with no
    skip-qualifying boundary in between, so the skip flag is set -- is fed to
    the context buffer like any text, and is never dispatched as prose; when
    the walker's current tag is neither a heading nor [li] it is not
    dispatched at all. *)
Theorem flagged_text_consumed_not_prose (pre : list html.Token)
    (s tok : html.Token) (w : Walker) :
  live pre = true ->
  find (fun t => core.StringInSlice (txtOf t) skipTags) (rev pre) = Some s ->
  html.Type_ s = html.StartTagToken ->
  html.Type_ tok = html.TextToken ->
  ctx (loop f lines (pre ++ [tok]) w) =
    updateCtx (clearElements (ctx (loop f lines pre w)) tok) (txtOf tok)
      html.TextToken /\
  exists new,
    calls (loop f lines (pre ++ [tok]) w) = calls (loop f lines pre w) ++ new /\
    (forall c, In c new -> isProse c = false) /\
    (heading_MatchString (tag (loop f lines pre w)) = false ->
     tag (loop f lines pre w) <> "li" -> new = []).
Proof.
  intros Hlive Hlast Hstart Hty.
  assert (Hblk : inBlock (loop f lines pre w) = true).
  { rewrite (flag_is_last_qualifying f lines pre w Hlive), Hlast, Hstart.
    reflexivity. }
  destruct (snoc_turn pre tok w Hlive) as (_ & _ & Hctx & Hcalls);
    [now rewrite Hty|].
  rewrite Hty in Hctx. split; [exact Hctx|].
  exists (emitted f lines (loop f lines pre w) tok).
  split; [exact Hcalls|].
  unfold emitted. rewrite Hty, Hblk. cbn [html.eqb negb andb].
  rewrite andb_true_r.
  destruct (core.StringInSlice (txtOf tok) skipTags).
  { split; [intros c []|reflexivity]. }
  destruct (heading_MatchString (tag (loop f lines pre w))).
  { split; [|discriminate]. intros c [<-|[]]. reflexivity. }
  destruct (tag (loop f lines pre w) =? "li")%string eqn:Eli.
  { split; [intros c [<-|[]]; reflexivity|].
    intros _ Hne. apply String.eqb_eq in Eli. contradiction. }
  split; [intros c []|reflexivity].
Qed.

(** The walker's [tag] is the text of the last start tag that was not
    skip-qualifying; end tags never reset it. *)
Lemma tag_is_last_start (toks : list html.Token) (w : Walker) :
  live toks = true ->
  tag (loop f lines toks w) =
  match find (fun t => (html.Type_ t == html.StartTagToken)
                       && negb (core.StringInSlice (txtOf t) skipTags))
             (rev toks) with
  | Some t => txtOf t
  | None => tag w
  end.
Proof.
  induction toks as [|tok pre IH] using rev_ind; intros Hlive; [reflexivity|].
  rewrite live_app in Hlive. apply andb_true_iff in Hlive as [Hpre Htok].
  cbn in Htok. rewrite andb_true_r in Htok. apply negb_true_iff in Htok.
  destruct (snoc_turn pre tok w Hpre Htok) as (Htag & _).
  rewrite Htag, rev_app_distr. cbn [rev app find].
  destruct ((html.Type_ tok == html.StartTagToken)
            && negb (core.StringInSlice (txtOf tok) skipTags)); [reflexivity|].
  now apply IH.
Qed.

(** C3 (as amended).  The walker classifies a text token by its variable
    [tag], the name of the most recent start tag that was not
    skip-qualifying (end tags never reset it), not by the innermost open
    element.  A text token that is not a skip-qualifying boundary of a
    flagged region is dispatched once: with kind "heading" when [tag] matches
    the heading pattern (h1 to h6 among them), else with kind "list" when
    [tag] is [li], else as prose when it is visible (flag clear, not a skip
    name, not empty); otherwise nothing is dispatched. *)
Theorem text_classified_by_last_start_tag (pre : list html.Token)
    (tok : html.Token) (w : Walker) :
  live pre = true ->
  html.Type_ tok = html.TextToken ->
  tag (loop f lines pre w) =
    match find (fun t => (html.Type_ t == html.StartTagToken)
                         && negb (core.StringInSlice (txtOf t) skipTags))
               (rev pre) with
    | Some t => txtOf t
    | None => tag w
    end /\
  calls (loop f lines (pre ++ [tok]) w) =
    calls (loop f lines pre w) ++
    (if core.StringInSlice (txtOf tok) skipTags && inBlock (loop f lines pre w)
     then []
     else if heading_MatchString (tag (loop f lines pre w))
     then [lintText f
             (NewBlock (ctx (loop f lines pre w)) (txtOf tok)
                ("text.heading" ++ core.RealExt f)%string) lines 0]
     else if (tag (loop f lines pre w) =? "li")%string
     then [lintText f
             (NewBlock (ctx (loop f lines pre w)) (txtOf tok)
                ("text.list" ++ core.RealExt f)%string) lines 0]
     else if negb (inBlock (loop f lines pre w))
             && negb (core.StringInSlice (txtOf tok) skipTags)
             && negb (txtOf tok =? "")%string
     then [lintProse f (ctx (loop f lines pre w)) (txtOf tok) lines 0]
     else []) /\
  (forall h, In h ["h1"; "h2"; "h3"; "h4"; "h5"; "h6"] ->
             heading_MatchString h = true).
Proof.
  intros Hlive Hty. split; [now apply tag_is_last_start|]. split.
  - destruct (snoc_turn pre tok w Hlive) as (_ & _ & _ & Hcalls);
      [now rewrite Hty|].
    rewrite Hcalls. unfold emitted. rewrite Hty. reflexivity.
  - intros h Hin. cbn in Hin.
    repeat (destruct Hin as [<-|Hin]; [reflexivity|]). contradiction.
Qed.

(** C9.  The skip check is made on the text of the token itself: a text
    token whose trimmed, unescaped, normalised text is a skip tag name
    ("code", "pre", "tt", "script", "style") adds no prose call, wherever it
    stands; and in a whole walk no prose call carries such a text. *)
Theorem skip_name_text_never_prose (pre : list html.Token)
    (tok : html.Token) (w : Walker) :
  live pre = true ->
  html.Type_ tok = html.TextToken ->
  In (txtOf tok) skipTags ->
  (exists new,
     calls (loop f lines (pre ++ [tok]) w) = calls (loop f lines pre w) ++ new /\
     forall c, In c new -> isProse c = false) /\
  (forall rawBytes toks offset c,
     In c (walkTokens f rawBytes toks offset) ->
     isProse c = true -> ~ In (callText c) skipTags).
Proof.
  intros Hlive Hty Hin. split.
  - destruct (snoc_turn pre tok w Hlive) as (_ & _ & _ & Hcalls);
      [now rewrite Hty|].
    exists (emitted f lines (loop f lines pre w) tok). split; [exact Hcalls|].
    apply StringInSlice_In in Hin.
    unfold emitted. rewrite Hty, Hin. cbn [html.eqb negb andb].
    destruct (inBlock (loop f lines pre w)); [intros c []|].
    destruct (heading_MatchString (tag (loop f lines pre w)));
      [intros c [<-|[]]; reflexivity|].
    destruct (tag (loop f lines pre w) =? "li")%string;
      [intros c [<-|[]]; reflexivity|].
    rewrite andb_false_r. intros c [].
  - intros rawBytes toks offset c Hc Hprose Hskip.
    apply StringInSlice_In in Hskip.
    unfold walkTokens in Hc.
    pose proof (loop_not_skip_prose f (linesOf (ctx (start rawBytes)) offset)
                  toks (start rawBytes) (Forall_nil _)) as Hall.
    rewrite Forall_forall in Hall. specialize (Hall c Hc Hprose). congruence.
Qed.

End Classification.

Section Folding.
Context {L : Lib}.
Variables (f : core.File) (lines : Z).

Lemma updateCtx_comment (c txt : string) :
  updateCtx c txt html.CommentToken = updateCtx c txt html.TextToken.
Proof. reflexivity. Qed.

(** C10.  A comment token is never dispatched: the calls are the same
    before and after it.  Its text goes to the context buffer by the very
    path a text token's does, [updateCtx] making no difference between the
    two token types. *)
Theorem comment_consumed_not_dispatched (pre : list html.Token)
    (tok : html.Token) (w : Walker) :
  live pre = true ->
  html.Type_ tok = html.CommentToken ->
  calls (loop f lines (pre ++ [tok]) w) = calls (loop f lines pre w) /\
  ctx (loop f lines (pre ++ [tok]) w) =
    updateCtx (clearElements (ctx (loop f lines pre w)) tok) (txtOf tok)
      html.TextToken /\
  (forall c txt, updateCtx c txt html.CommentToken = updateCtx c txt html.TextToken).
Proof.
  intros Hlive Hty.
  destruct (snoc_turn f lines pre tok w Hlive) as (_ & _ & Hctx & Hcalls);
    [now rewrite Hty|].
  repeat split.
  - rewrite Hcalls. unfold emitted. rewrite Hty. cbn. apply app_nil_r.
  - rewrite Hctx, Hty. apply updateCtx_comment.
Qed.

Lemma fold_left_guarded {A B C : Type} (p : B -> bool) (h : B -> C)
    (g : A -> C -> A) (l : list B) (a : A) :
  fold_left (fun a b => if p b then g a (h b) else a) l a =
  fold_left g (map h (filter p l)) a.
Proof.
  revert a. induction l as [|b l IH]; intros a; [reflexivity|].
  cbn. destruct (p b); cbn; apply IH.
Qed.

Lemma clearElements_folds (c : string) (tok : html.Token) :
  html.Data tok = "img" \/ html.Data tok = "a" ->
  clearElements c tok =
  fold_left (fun c v => updateCtx c v html.TextToken) (foldedValues tok) c.
Proof.
  intros Hdata. unfold clearElements, foldedValues.
  replace ((html.Data tok =? "img") || (html.Data tok =? "a"))%string with true
    by (destruct Hdata as [-> | ->]; reflexivity).
  apply (fold_left_guarded
           (fun a => (html.Key a =? "alt") || (html.Key a =? "href"))%string
           html.Val (fun c v => updateCtx c v html.TextToken)).
Qed.

Lemma emitted_from_text (w : Walker) (tok : html.Token) (c : Call) :
  In c (emitted f lines w tok) ->
  html.Type_ tok = html.TextToken /\ callText c = txtOf tok.
Proof.
  unfold emitted.
  destruct (html.Type_ tok); cbn [html.eqb negb]; try (intros []).
  repeat match goal with
         | |- context [if ?b then _ else _] => destruct b
         end; cbn [In]; intros Hin; try contradiction;
    (destruct Hin as [<-|Hin]; [split; reflexivity|contradiction]).
Qed.

Lemma loop_from_text (all toks : list html.Token) (w : Walker) :
  incl toks all ->
  (forall c, In c (calls w) ->
     exists t, In t all /\ html.Type_ t = html.TextToken /\ callText c = txtOf t) ->
  forall c, In c (calls (loop f lines toks w)) ->
     exists t, In t all /\ html.Type_ t = html.TextToken /\ callText c = txtOf t.
Proof.
  revert w. induction toks as [|tok toks IH]; intros w Hincl Hw; [exact Hw|].
  cbn. destruct (html.Type_ tok == html.ErrorToken) eqn:E.
  - unfold iteration. now rewrite E.
  - destruct (iteration_turn f lines w tok E) as (w' & Hit & _ & _ & _ & _ & Hc).
    rewrite Hit. apply IH.
    + intros t Ht. apply Hincl. now right.
    + intros c Hin. rewrite Hc in Hin. apply in_app_or in Hin as [Hin|Hin].
      * now apply Hw.
      * apply emitted_from_text in Hin as [Hty Htxt].
        exists tok. repeat split; [apply Hincl; now left|exact Hty|exact Htxt].
Qed.

End Folding.

Section Attributes.
Context {L : Lib}.

(** C6.  At an [img] or [a] element (a start tag or a self-closing tag of
    that name) the values of its [alt] and [href] attributes are fed to the
    context buffer, one text update each, in attribute order, at the
    position of the element; the element adds no call.  No call ever carries
    an attribute value as such: the text of every call of a walk is the text
    of a text token of the stream. *)
Theorem attributes_folded_not_dispatched (f : core.File) (lines : Z)
    (pre : list html.Token) (tok : html.Token) (w : Walker) :
  live pre = true ->
  html.Type_ tok = html.StartTagToken \/ html.Type_ tok = html.SelfClosingTagToken ->
  html.Data tok = "img" \/ html.Data tok = "a" ->
  ctx (loop f lines (pre ++ [tok]) w) =
    fold_left (fun c v => updateCtx c v html.TextToken) (foldedValues tok)
      (ctx (loop f lines pre w)) /\
  calls (loop f lines (pre ++ [tok]) w) = calls (loop f lines pre w) /\
  (forall rawBytes toks offset c,
     In c (walkTokens f rawBytes toks offset) ->
     exists t, In t toks /\ html.Type_ t = html.TextToken /\ callText c = txtOf t).
Proof.
  intros Hlive Hty Hdata.
  destruct (snoc_turn f lines pre tok w Hlive) as (_ & _ & Hctx & Hcalls);
    [destruct Hty as [-> | ->]; reflexivity|].
  repeat split.
  - rewrite Hctx, (clearElements_folds _ tok Hdata).
    destruct Hty as [-> | ->]; reflexivity.
  - rewrite Hcalls. unfold emitted.
    destruct Hty as [-> | ->]; cbn; apply app_nil_r.
  - intros rawBytes toks offset c Hin. unfold walkTokens in Hin.
    eapply loop_from_text; [apply incl_refl| |exact Hin].
    intros c' [].
Qed.

End Attributes.

Section ContextTracker.
Context {L : Lib}.

Lemma fold_left_same {A B : Type} (g h : A -> B -> A) (l : list B) (a : A) :
  (forall a b, g a b = h a b) -> fold_left g l a = fold_left h l a.
Proof.
  intros Hgh. revert a. induction l as [|b l IH]; intros a; [reflexivity|].
  cbn. rewrite Hgh. apply IH.
Qed.

Lemma words_one_by_one (ws : list string) (c : string) :
  (forall c s, snd (Substitute c s) = false -> fst (Substitute c s) = c) ->
  fold_left (fun c w => fst (Substitute c w)) ws c = consumeWords c ws.
Proof.
  intros Hmiss. revert c. induction ws as [|w ws IH]; intros c; [reflexivity|].
  cbn. specialize (Hmiss c w).
  destruct (Substitute c w) as [c' [|]]; cbn in *.
  - apply IH.
  - rewrite Hmiss by reflexivity. apply IH.
Qed.

Lemma shape_emitted (sub : string -> string -> string * bool)
    (f : core.File) (lines : Z) (w1 w2 : Walker) (tok : html.Token) :
  tag w1 = tag w2 -> inBlock w1 = inBlock w2 ->
  map shape (@emitted (withSubstitute L sub) f lines w1 tok) =
  map shape (@emitted L f lines w2 tok).
Proof.
  intros Htag Hblk. unfold emitted.
  change (@txtOf (withSubstitute L sub) tok) with (@txtOf L tok).
  rewrite Htag, Hblk.
  repeat match goal with
         | |- context [if ?b then _ else _] => destruct b
         end; reflexivity.
Qed.

Lemma shape_loop (sub : string -> string -> string * bool)
    (f : core.File) (lines : Z) (toks : list html.Token) (w1 w2 : Walker) :
  tag w1 = tag w2 -> inBlock w1 = inBlock w2 ->
  map shape (calls w1) = map shape (calls w2) ->
  map shape (calls (@loop (withSubstitute L sub) f lines toks w1)) =
  map shape (calls (@loop L f lines toks w2)).
Proof.
  revert w1 w2. induction toks as [|tok toks IH]; intros w1 w2 Htag Hblk Hcalls;
    [exact Hcalls|].
  cbn. destruct (html.Type_ tok == html.ErrorToken) eqn:E.
  - unfold iteration. rewrite E. exact Hcalls.
  - destruct (@iteration_turn (withSubstitute L sub) f lines w1 tok E)
      as (w1' & Hit1 & _ & Htag1 & Hblk1 & _ & Hc1).
    destruct (@iteration_turn L f lines w2 tok E)
      as (w2' & Hit2 & _ & Htag2 & Hblk2 & _ & Hc2).
    rewrite Hit1, Hit2. apply IH.
    + rewrite Htag1, Htag2, Htag. reflexivity.
    + rewrite Hblk1, Hblk2, Hblk. reflexivity.
    + rewrite Hc1, Hc2, !map_app, Hcalls. f_equal.
      now apply shape_emitted.
Qed.

(** C4 (as amended).  [updateCtx] takes the fragment of a text or comment
    token line by line.  A line with an exact match in the buffer is
    consumed whole; a line without one is split on white space and its words
    are consumed one by one, in order; a word that cannot be located is
    skipped, the buffer staying as it is and the words and lines after it
    being consumed all the same.  ([core.Substitute] is taken to return the
    buffer unchanged when it finds nothing.)  A miss raises no error and
    aborts nothing: the kind, text and line of every call of a walk are the
    same whatever [core.Substitute] finds; only the residual context differs. *)
Theorem consume_by_line_then_words (ctx txt : string) (tokt : html.TokenType) :
  (forall c s, snd (Substitute c s) = false -> fst (Substitute c s) = c) ->
  tokt = html.TextToken \/ tokt = html.CommentToken ->
  txt <> "" ->
  updateCtx ctx txt tokt = consumeLines ctx txt /\
  (forall sub f rawBytes toks offset,
     map shape (@walkTokens (withSubstitute L sub) f rawBytes toks offset) =
     map shape (@walkTokens L f rawBytes toks offset)).
Proof.
  intros Hmiss Hty Hne. split.
  - unfold updateCtx, consumeLines.
    replace ((tokt == html.TextToken) || (tokt == html.CommentToken)) with true
      by (destruct Hty as [-> | ->]; reflexivity).
    apply String.eqb_neq in Hne. rewrite Hne. cbn [andb negb].
    apply fold_left_same. intros c s. unfold consumeWhole.
    pose proof (Hmiss c s) as Hcs.
    destruct (Substitute c s) as [c' [|]]; cbn in *; [reflexivity|].
    rewrite Hcs by reflexivity. now apply words_one_by_one.
  - intros sub f rawBytes toks offset. unfold walkTokens.
    apply shape_loop; reflexivity.
Qed.

End ContextTracker.

Section Renderers.
Context {L : Lib} {W : World}.

(** C2.  When the external renderer of a reStructuredText or of an AsciiDoc
    document fails -- [cmd.Run] returns an error, for a nonzero exit and for
    a process that could not be started alike -- the pass dispatches no block
    at all, whatever the process wrote before failing, and reports the
    failure once. *)
Theorem renderer_failure_dispatches_nothing (f : core.File)
    (python rst2html asciidoctor : string) (b out : string) (e : core.error) :
  ReadFile (core.Path f) = (b, None) ->
  (Run python (rst2html :: rstArgs) (reCodeBlock_ReplaceAll b "::") = (out, Some e) ->
   lintRST f python rst2html =
     {| dispatched := []; reported := [(e, core.Path f)] |}) /\
  (Run asciidoctor adocArgs b = (out, Some e) ->
   lintADoc f asciidoctor =
     {| dispatched := []; reported := [(e, core.Path f)] |}).
Proof.
  intros Hread. split; intros Hrun.
  - unfold lintRST. rewrite Hread. cbn. rewrite Hrun. reflexivity.
  - unfold lintADoc. rewrite Hread. cbn. rewrite Hrun. reflexivity.
Qed.

End Renderers.

(** * The failing streams under any library

    The two streams below show where the walker parts from the element
    nesting.  They do so for every implementation of the library functions
    that reads the plain words involved as they stand. *)

Section AnyLibrary.
Context {L : Lib}.

(** In [<pre><code>x</code>y</pre>] the text [y], inside the open [pre], is
    dispatched as prose. *)
Lemma nested_skip_in_any_library (f : core.File) (rawBytes : string) (offset : Z) :
  kept "pre" -> kept "code" -> kept "x" -> kept "y" ->
  exists c lines,
    walkTokens f rawBytes (nestedSkip ++ [text "y"]) offset =
    walkTokens f rawBytes nestedSkip offset ++ [lintProse f c "y" lines 0].
Proof.
  unfold kept. intros Hpre Hcode Hx Hy. unfold walkTokens.
  set (lines := linesOf (ctx (start rawBytes)) offset).
  destruct (snoc_turn f lines nestedSkip (text "y") (start rawBytes) eq_refl eq_refl)
    as (_ & _ & _ & Hcalls).
  pose proof (flag_is_last_qualifying f lines nestedSkip (start rawBytes) eq_refl) as Hblk.
  pose proof (tag_is_last_start f lines nestedSkip (start rawBytes) eq_refl) as Htag.
  remember (loop f lines nestedSkip (start rawBytes)) as w0 eqn:Ew0. clear Ew0.
  unfold txtOf in Hblk, Htag. cbn in Hblk, Htag.
  rewrite ?Hpre, ?Hcode, ?Hx, ?Hy in Hblk, Htag. cbn in Hblk, Htag.
  rewrite Hcalls. exists (ctx w0), lines. f_equal.
  unfold emitted, txtOf. rewrite Hblk, Htag. cbn. rewrite ?Hpre, ?Hcode, ?Hx, ?Hy. reflexivity.
Qed.

(** In [<li><code>foo</code></li>] the text [foo], inside [code], is
    dispatched as a list item. *)
Lemma code_in_item_in_any_library (f : core.File) (rawBytes : string) (offset : Z) :
  kept "li" -> kept "code" -> kept "foo" ->
  exists c lines,
    walkTokens f rawBytes (codeInItem ++ [text "foo"]) offset =
    walkTokens f rawBytes codeInItem offset ++
    [lintText f (NewBlock c "foo" ("text.list" ++ core.RealExt f)%string) lines 0].
Proof.
  unfold kept. intros Hli Hcode Hfoo. unfold walkTokens.
  set (lines := linesOf (ctx (start rawBytes)) offset).
  destruct (snoc_turn f lines codeInItem (text "foo") (start rawBytes) eq_refl eq_refl)
    as (_ & _ & _ & Hcalls).
  pose proof (flag_is_last_qualifying f lines codeInItem (start rawBytes) eq_refl) as Hblk.
  pose proof (tag_is_last_start f lines codeInItem (start rawBytes) eq_refl) as Htag.
  remember (loop f lines codeInItem (start rawBytes)) as w0 eqn:Ew0. clear Ew0.
  unfold txtOf in Hblk, Htag. cbn in Hblk, Htag.
  rewrite ?Hli, ?Hcode, ?Hfoo in Hblk, Htag. cbn in Hblk, Htag.
  rewrite Hcalls. exists (ctx w0), lines. f_equal.
  unfold emitted, txtOf. rewrite Hblk, Htag. cbn. rewrite ?Hli, ?Hcode, ?Hfoo. reflexivity.
Qed.

(** In [<h1><b>x</b>y</h1>] the text [y], whose innermost open element is
    the heading, is dispatched as prose. *)
Lemma inline_in_heading_in_any_library (f : core.File) (rawBytes : string)
    (offset : Z) :
  kept "h1" -> kept "b" -> kept "x" -> kept "y" ->
  exists c lines,
    walkTokens f rawBytes (boldInHeading ++ [text "y"]) offset =
    walkTokens f rawBytes boldInHeading offset ++ [lintProse f c "y" lines 0].
Proof.
  unfold kept. intros Hh1 Hb Hx Hy. unfold walkTokens.
  set (lines := linesOf (ctx (start rawBytes)) offset).
  destruct (snoc_turn f lines boldInHeading (text "y") (start rawBytes) eq_refl eq_refl)
    as (_ & _ & _ & Hcalls).
  pose proof (flag_is_last_qualifying f lines boldInHeading (start rawBytes) eq_refl) as Hblk.
  pose proof (tag_is_last_start f lines boldInHeading (start rawBytes) eq_refl) as Htag.
  remember (loop f lines boldInHeading (start rawBytes)) as w0 eqn:Ew0. clear Ew0.
  unfold txtOf in Hblk, Htag. cbn in Hblk, Htag.
  rewrite ?Hh1, ?Hb, ?Hx, ?Hy in Hblk, Htag. cbn in Hblk, Htag.
  rewrite Hcalls. exists (ctx w0), lines. f_equal.
  unfold emitted, txtOf. rewrite Hblk, Htag. cbn. rewrite ?Hh1, ?Hb, ?Hx, ?Hy. reflexivity.
Qed.

End AnyLibrary.

(** * Further properties of the walker *)

Section WalkShape.
Context {L : Lib}.
Variables (f : core.File) (lines : Z).

(** A property of calls that every turn establishes holds of all calls. *)
Lemma loop_calls_Forall (Q : Call -> Prop) (toks : list html.Token) (w : Walker) :
  (forall w tok, Forall Q (emitted f lines w tok)) ->
  Forall Q (calls w) -> Forall Q (calls (loop f lines toks w)).
Proof.
  intros Hem. revert w. induction toks as [|tok toks IH]; intros w Hw; [exact Hw|].
  cbn. destruct (html.Type_ tok == html.ErrorToken) eqn:E.
  - unfold iteration. now rewrite E.
  - destruct (iteration_turn f lines w tok E) as (w' & Hit & _ & _ & _ & _ & Hc).
    rewrite Hit. apply IH. rewrite Hc. apply Forall_app. split; [exact Hw|apply Hem].
Qed.

Lemma emitted_cases (w : Walker) (tok : html.Token) :
  emitted f lines w tok = [] \/
  exists c, emitted f lines w tok = [c] /\ callText c = txtOf tok /\
            callContext c = ctx w /\ isText tok = true.
Proof.
  unfold emitted, isText.
  destruct (html.Type_ tok == html.TextToken); cbn [negb]; [|now left].
  repeat match goal with
         | |- context [if ?b then _ else _] => destruct b
         end; (now left) || (right; eexists; repeat split).
Qed.

Lemma emitted_well_formed (w : Walker) (tok : html.Token) :
  Forall (fun c =>
            callFile c = f /\ callPad c = 0%Z /\
            match c with
            | lintText _ b _ _ =>
                Scope b = ("text.heading" ++ core.RealExt f)%string \/
                Scope b = ("text.list" ++ core.RealExt f)%string
            | lintProse _ _ txt _ _ => txt <> ""
            end)
    (emitted f lines w tok).
Proof.
  unfold emitted.
  destruct (negb (html.Type_ tok == html.TextToken)); [constructor|].
  destruct (core.StringInSlice (txtOf tok) skipTags && inBlock w); [constructor|].
  destruct (heading_MatchString (tag w)); [repeat constructor; now left|].
  destruct (tag w =? "li")%string; [repeat constructor; now right|].
  destruct (txtOf tok =? "")%string eqn:Etxt;
    [rewrite andb_false_r; constructor|].
  destruct (negb (inBlock w) && negb (core.StringInSlice (txtOf tok) skipTags));
    cbn [andb negb]; repeat constructor.
  now apply String.eqb_neq.
Qed.

Lemma Subseq_nil_l {A : Type} (l : list A) : Subseq [] l.
Proof. induction l; constructor; assumption. Qed.

Lemma Subseq_length {A : Type} (l1 l2 : list A) :
  Subseq l1 l2 -> length l1 <= length l2.
Proof. induction 1; cbn; lia. Qed.

Lemma loop_calls_follow (toks : list html.Token) (w : Walker) :
  exists new,
    calls (loop f lines toks w) = calls w ++ new /\
    Subseq (map callText new) (map txtOf (filter isText toks)).
Proof.
  revert w. induction toks as [|tok toks IH]; intros w.
  - exists []. cbn. split; [now rewrite app_nil_r|constructor].
  - cbn [loop]. destruct (html.Type_ tok == html.ErrorToken) eqn:E.
    + unfold iteration. rewrite E. exists []. split; [now rewrite app_nil_r|].
      apply Subseq_nil_l.
    + destruct (iteration_turn f lines w tok E) as (w' & Hit & _ & _ & _ & _ & Hc).
      rewrite Hit. destruct (IH w') as (new & Hnew & Hsub).
      exists (emitted f lines w tok ++ new).
      split; [now rewrite Hnew, Hc, app_assoc|].
      cbn [filter].
      destruct (emitted_cases w tok) as [-> | (c & -> & Htxt & _ & Hty)].
      * cbn [app]. destruct (isText tok); [|exact Hsub].
        cbn [map]. now constructor.
      * rewrite Hty. cbn [app map]. rewrite Htxt. now constructor.
Qed.

(** The context after a run of tokens is the context before it with every
    token fed in turn. *)
Lemma loop_ctx_fold (toks : list html.Token) (w : Walker) :
  live toks = true -> ctx (loop f lines toks w) = fold_left feed toks (ctx w).
Proof.
  revert w. induction toks as [|tok toks IH]; intros w Hlive; [reflexivity|].
  cbn in Hlive. apply andb_true_iff in Hlive as [Htok Htoks].
  apply negb_true_iff in Htok.
  destruct (iteration_turn f lines w tok Htok) as (w' & Hit & _ & _ & _ & Hctx & _).
  cbn. rewrite Hit, IH by assumption. now rewrite Hctx.
Qed.

End WalkShape.

Section WalkerExtras.
Context {L : Lib}.

(** X1.  The calls of a walk follow the text tokens of the stream: their
    texts are texts of text tokens, in stream order, each token giving at
    most one call.  There are never more calls than text tokens, and a
    stream without text tokens dispatches nothing. *)
Theorem calls_follow_text_tokens (f : core.File) (rawBytes : string)
    (toks : list html.Token) (offset : Z) :
  Subseq (map callText (walkTokens f rawBytes toks offset))
    (map txtOf (filter isText toks)) /\
  length (walkTokens f rawBytes toks offset) <= length (filter isText toks) /\
  (filter isText toks = [] -> walkTokens f rawBytes toks offset = []).
Proof.
  unfold walkTokens.
  destruct (loop_calls_follow f (linesOf (ctx (start rawBytes)) offset) toks
              (start rawBytes)) as (new & Hnew & Hsub).
  rewrite Hnew. cbn [calls start app].
  split; [exact Hsub|].
  apply Subseq_length in Hsub. rewrite !length_map in Hsub.
  split; [exact Hsub|].
  intros Hnone. rewrite Hnone in Hsub. cbn in Hsub.
  destruct new; [reflexivity|cbn in Hsub; lia].
Qed.

(** X2.  Every call of a walk is made for the file being linted and with a
    padding of zero; a block carries the scope [text.heading] or
    [text.list] followed by the real extension of the file, and a prose call
    never carries an empty text. *)
Theorem calls_well_formed (f : core.File) (rawBytes : string)
    (toks : list html.Token) (offset : Z) :
  Forall (fun c =>
            callFile c = f /\ callPad c = 0%Z /\
            match c with
            | lintText _ b _ _ =>
                Scope b = ("text.heading" ++ core.RealExt f)%string \/
                Scope b = ("text.list" ++ core.RealExt f)%string
            | lintProse _ _ txt _ _ => txt <> ""
            end)
    (walkTokens f rawBytes toks offset).
Proof.
  unfold walkTokens. apply loop_calls_Forall; [|constructor].
  intros w tok. apply emitted_well_formed.
Qed.

(** X3.  The context is consumed by every token that is walked, whatever is
    dispatched: after a run of tokens it is the context before the run with
    each token fed in turn (the [alt] and [href] values of an [img] or [a]
    token, then the text of a text or comment token).  It depends neither on
    the file, nor on the line number, nor on the tag and the skip flag. *)
Theorem context_consumes_every_token (f f' : core.File) (lines lines' : Z)
    (toks : list html.Token) (w w' : Walker) :
  live toks = true ->
  ctx (loop f lines toks w) = fold_left feed toks (ctx w) /\
  (ctx w = ctx w' -> ctx (loop f lines toks w) = ctx (loop f' lines' toks w')).
Proof.
  intros Hlive. split; [now apply loop_ctx_fold|].
  intros Hctx. rewrite !loop_ctx_fold by assumption. now rewrite Hctx.
Qed.

Lemma updateCtx_keeps (P : string -> Prop) (c txt : string) (tokt : html.TokenType) :
  (forall c s, P c -> P (fst (Substitute c s))) -> P c -> P (updateCtx c txt tokt).
Proof.
  intros Hsub Hc. unfold updateCtx.
  destruct (((tokt == html.TextToken) || (tokt == html.CommentToken))
            && negb (txt =? "")%string); [|exact Hc].
  revert c Hc. induction (strings.Split txt strings.LF) as [|s ss IH];
    intros c Hc; [exact Hc|].
  cbn [fold_left]. apply IH.
  pose proof (Hsub c s Hc) as Hcs.
  destruct (Substitute c s) as [c' found]. cbn [fst] in Hcs.
  destruct found; cbn [negb]; [exact Hcs|].
  revert c' Hcs. induction (Fields s) as [|x xs IHw]; intros c' Hc'; [exact Hc'|].
  cbn [fold_left]. apply IHw. now apply Hsub.
Qed.

Lemma clearElements_keeps (P : string -> Prop) (c : string) (tok : html.Token) :
  (forall c s, P c -> P (fst (Substitute c s))) -> P c -> P (clearElements c tok).
Proof.
  intros Hsub Hc. unfold clearElements.
  destruct ((html.Data tok =? "img") || (html.Data tok =? "a"))%string; [|exact Hc].
  revert c Hc. induction (html.Attr tok) as [|a l IH]; intros c Hc; [exact Hc|].
  cbn [fold_left]. apply IH.
  destruct ((html.Key a =? "alt") || (html.Key a =? "href"))%string; [|exact Hc].
  now apply updateCtx_keeps.
Qed.

Lemma loop_keeps (P : string -> Prop) (f : core.File) (lines : Z)
    (toks : list html.Token) (w : Walker) :
  (forall c s, P c -> P (fst (Substitute c s))) ->
  P (ctx w) -> Forall (fun c => P (callContext c)) (calls w) ->
  Forall (fun c => P (callContext c)) (calls (loop f lines toks w)).
Proof.
  intros Hsub. revert w. induction toks as [|tok toks IH]; intros w Hctx Hw;
    [exact Hw|].
  cbn. destruct (html.Type_ tok == html.ErrorToken) eqn:E.
  - unfold iteration. now rewrite E.
  - destruct (iteration_turn f lines w tok E)
      as (w' & Hit & _ & _ & _ & Hctx' & Hc).
    rewrite Hit. apply IH.
    + rewrite Hctx'. apply updateCtx_keeps; [exact Hsub|].
      now apply clearElements_keeps.
    + rewrite Hc. apply Forall_app. split; [exact Hw|].
      destruct (emitted_cases f lines w tok) as [-> | (c & -> & _ & Hcc & _)];
        [constructor|].
      constructor; [now rewrite Hcc|constructor].
Qed.

(** X4.  The walker changes the context through [core.Substitute] alone:
    whatever holds of the normalised source and is kept by every
    substitution (a bound on the length, for one) holds of the context of
    every call handed to the rule engine. *)
Theorem contexts_come_from_Substitute (P : string -> Prop) (f : core.File)
    (rawBytes : string) (toks : list html.Token) (offset : Z) :
  (forall c s, P c -> P (fst (Substitute c s))) ->
  P (PrepText rawBytes) ->
  Forall (fun c => P (callContext c)) (walkTokens f rawBytes toks offset).
Proof.
  intros Hsub Hraw. unfold walkTokens.
  apply loop_keeps; [exact Hsub|exact Hraw|constructor].
Qed.

End WalkerExtras.

Section Simulation.
Context {L : Lib}.

Lemma fold_left_filter_guard {A B : Type} (p : B -> bool) (g : A -> B -> A)
    (l : list B) (a : A) :
  fold_left (fun a b => if p b then g a b else a) (filter p l) a =
  fold_left (fun a b => if p b then g a b else a) l a.
Proof.
  revert a. induction l as [|b l IH]; intros a; [reflexivity|].
  cbn. destruct (p b) eqn:E; cbn; [rewrite E|]; apply IH.
Qed.

Lemma clearElements_strip (c : string) (tok : html.Token) :
  clearElements c (strip tok) = clearElements c tok.
Proof.
  unfold clearElements, strip. cbn [html.Data html.Attr].
  destruct ((html.Data tok =? "img") || (html.Data tok =? "a"))%string;
    [|reflexivity].
  apply (fold_left_filter_guard foldable
           (fun ctx a => updateCtx ctx (html.Val a) html.TextToken)).
Qed.

(** Walkers that differ at most in [attr] stay so over tokens of the same
    type and text that feed the context alike. *)
Lemma iteration_sameButAttr (f : core.File) (lines : Z) (w1 w2 : Walker)
    (tok1 tok2 : html.Token) :
  sameButAttr w1 w2 ->
  html.Type_ tok1 = html.Type_ tok2 ->
  html.Data tok1 = html.Data tok2 ->
  (forall c, clearElements c tok1 = clearElements c tok2) ->
  (html.Type_ tok2 == html.ErrorToken) = false ->
  exists w1' w2',
    iteration f lines w1 tok1 = Some w1' /\
    iteration f lines w2 tok2 = Some w2' /\
    sameButAttr w1' w2'.
Proof.
  intros (Htag & Hblk & Hctx & Hcalls) Hty Hdata Hclear Hlive.
  assert (Htxt : txtOf tok1 = txtOf tok2) by (unfold txtOf; now rewrite Hdata).
  assert (Hlive1 : (html.Type_ tok1 == html.ErrorToken) = false)
    by now rewrite Hty.
  destruct (iteration_turn f lines w1 tok1 Hlive1)
    as (w1' & Hit1 & _ & Htag1 & Hblk1 & Hctx1 & Hc1).
  destruct (iteration_turn f lines w2 tok2 Hlive)
    as (w2' & Hit2 & _ & Htag2 & Hblk2 & Hctx2 & Hc2).
  exists w1', w2'. split; [exact Hit1|]. split; [exact Hit2|].
  unfold sameButAttr.
  rewrite Htag1, Htag2, Hblk1, Hblk2, Hctx1, Hctx2, Hc1, Hc2.
  unfold emitted. rewrite Hty, Htxt, Htag, Hblk, Hctx, Hcalls, Hclear.
  repeat split.
Qed.

Lemma loop_strip (f : core.File) (lines : Z) (toks : list html.Token)
    (w1 w2 : Walker) :
  sameButAttr w1 w2 ->
  sameButAttr (loop f lines (map strip toks) w1) (loop f lines toks w2).
Proof.
  revert w1 w2. induction toks as [|tok toks IH]; intros w1 w2 Hsame;
    [exact Hsame|].
  cbn [map loop]. destruct (html.Type_ tok == html.ErrorToken) eqn:E.
  - unfold iteration. cbn [strip html.Type_]. rewrite E. exact Hsame.
  - destruct (iteration_sameButAttr f lines w1 w2 (strip tok) tok Hsame
                eq_refl eq_refl (fun c => clearElements_strip c tok) E)
      as (w1' & w2' & Hit1 & Hit2 & Hsame').
    rewrite Hit1, Hit2. now apply IH.
Qed.

Lemma updateCtx_tag (c txt : string) (tokt : html.TokenType) :
  (tokt == html.TextToken) = false -> (tokt == html.CommentToken) = false ->
  updateCtx c txt tokt = c.
Proof. intros H1 H2. unfold updateCtx. now rewrite H1, H2. Qed.

(** An inert token leaves the walker as it was, [attr] apart. *)
Lemma iteration_inert (f : core.File) (lines : Z) (w : Walker) (tok : html.Token) :
  inert tok = true ->
  exists w', iteration f lines w tok = Some w' /\ sameButAttr w' w.
Proof.
  unfold inert. intros Hin.
  apply andb_true_iff in Hin as [Hin Hdata].
  apply andb_true_iff in Hin as [Hty Hskip].
  apply negb_true_iff in Hdata, Hskip.
  assert (Hkinds : (html.Type_ tok == html.ErrorToken) = false /\
                   (html.Type_ tok == html.StartTagToken) = false /\
                   (html.Type_ tok == html.TextToken) = false /\
                   (html.Type_ tok == html.CommentToken) = false)
    by (destruct (html.Type_ tok); try discriminate Hty; repeat split).
  destruct Hkinds as (Herr & Hstart & Htext & Hcomment).
  destruct (iteration_turn f lines w tok Herr)
    as (w' & Hit & _ & Htag & Hblk & Hctx & Hc).
  exists w'. split; [exact Hit|]. unfold sameButAttr.
  rewrite Htag, Hblk, Hctx, Hc, Hstart, Hskip.
  unfold emitted, clearElements. rewrite Htext, Hdata. cbn [andb negb].
  rewrite updateCtx_tag by assumption. rewrite app_nil_r. repeat split.
Qed.

Lemma sameButAttr_refl (w : Walker) : sameButAttr w w.
Proof. repeat split. Qed.

Lemma sameButAttr_trans (w1 w2 w3 : Walker) :
  sameButAttr w1 w2 -> sameButAttr w2 w3 -> sameButAttr w1 w3.
Proof.
  intros (A1 & A2 & A3 & A4) (B1 & B2 & B3 & B4).
  repeat split; congruence.
Qed.

Lemma sameButAttr_sym (w1 w2 : Walker) : sameButAttr w1 w2 -> sameButAttr w2 w1.
Proof. intros (A1 & A2 & A3 & A4). repeat split; congruence. Qed.

Lemma inert_live (tok : html.Token) :
  inert tok = true -> (html.Type_ tok == html.ErrorToken) = false.
Proof.
  unfold inert. destruct (html.Type_ tok); cbn; try reflexivity; discriminate.
Qed.

Lemma loop_inert (f : core.File) (lines : Z) (toks : list html.Token)
    (w1 w2 : Walker) :
  sameButAttr w1 w2 ->
  sameButAttr (loop f lines (filter (fun t => negb (inert t)) toks) w1)
    (loop f lines toks w2).
Proof.
  revert w1 w2. induction toks as [|tok toks IH]; intros w1 w2 Hsame;
    [exact Hsame|].
  cbn [filter]. destruct (inert tok) eqn:Ein; cbn [negb].
  - destruct (iteration_inert f lines w2 tok Ein) as (w2' & Hit & Hkeep).
    cbn [loop]. rewrite Hit. apply IH.
    eapply sameButAttr_trans; [exact Hsame|]. now apply sameButAttr_sym.
  - cbn [loop]. destruct (html.Type_ tok == html.ErrorToken) eqn:E.
    + unfold iteration. rewrite E. exact Hsame.
    + destruct (iteration_sameButAttr f lines w1 w2 tok tok Hsame
                  eq_refl eq_refl (fun c => eq_refl) E)
        as (w1' & w2' & Hit1 & Hit2 & Hsame').
      rewrite Hit1, Hit2. now apply IH.
Qed.

Lemma kind_emitted (f : core.File) (lines1 lines2 : Z) (w1 w2 : Walker)
    (tok : html.Token) :
  tag w1 = tag w2 -> inBlock w1 = inBlock w2 ->
  map kindText (emitted f lines1 w1 tok) = map kindText (emitted f lines2 w2 tok).
Proof.
  intros Htag Hblk. unfold emitted. rewrite Htag, Hblk.
  repeat match goal with
         | |- context [if ?b then _ else _] => destruct b
         end; reflexivity.
Qed.

Lemma kind_loop (f : core.File) (lines1 lines2 : Z) (toks : list html.Token)
    (w1 w2 : Walker) :
  tag w1 = tag w2 -> inBlock w1 = inBlock w2 ->
  map kindText (calls w1) = map kindText (calls w2) ->
  map kindText (calls (loop f lines1 toks w1)) =
  map kindText (calls (loop f lines2 toks w2)).
Proof.
  revert w1 w2. induction toks as [|tok toks IH]; intros w1 w2 Htag Hblk Hcalls;
    [exact Hcalls|].
  cbn. destruct (html.Type_ tok == html.ErrorToken) eqn:E.
  - unfold iteration. rewrite E. exact Hcalls.
  - destruct (iteration_turn f lines1 w1 tok E)
      as (w1' & Hit1 & _ & Htag1 & Hblk1 & _ & Hc1).
    destruct (iteration_turn f lines2 w2 tok E)
      as (w2' & Hit2 & _ & Htag2 & Hblk2 & _ & Hc2).
    rewrite Hit1, Hit2. apply IH.
    + now rewrite Htag1, Htag2, Htag.
    + now rewrite Hblk1, Hblk2, Hblk.
    + rewrite Hc1, Hc2, !map_app, Hcalls. f_equal. now apply kind_emitted.
Qed.

Lemma loop_plain (f : core.File) (lines : Z) (toks : list html.Token) (w : Walker) :
  live toks = true ->
  Forall (fun t => html.Type_ t <> html.StartTagToken) toks ->
  tag w = "" -> inBlock w = false ->
  map kindText (calls (loop f lines toks w)) =
  map kindText (calls w) ++ map (fun t => (None, txtOf t)) (filter visible toks).
Proof.
  revert w. induction toks as [|tok toks IH]; intros w Hlive Hno Htag Hblk.
  - cbn. now rewrite app_nil_r.
  - cbn in Hlive. apply andb_true_iff in Hlive as [Htok Htoks].
    apply negb_true_iff in Htok.
    inversion Hno as [|? ? Hns Hno']; subst.
    assert (Hstart : (html.Type_ tok == html.StartTagToken) = false)
      by (destruct (html.Type_ tok); try reflexivity; now contradiction Hns).
    destruct (iteration_turn f lines w tok Htok)
      as (w' & Hit & _ & Htag' & Hblk' & _ & Hc).
    cbn [loop]. rewrite Hit. rewrite IH; try assumption.
    + rewrite Hc, map_app, <- app_assoc. f_equal.
      unfold emitted, visible, isText. rewrite Htag, Hblk. cbn [filter].
      destruct (html.Type_ tok == html.TextToken); cbn [negb andb];
        [|reflexivity].
      rewrite andb_false_r. cbn [heading_MatchString String.eqb].
      destruct (txtOf tok =? "")%string;
        destruct (core.StringInSlice (txtOf tok) skipTags); reflexivity.
    + now rewrite Htag', Hstart.
    + rewrite Hblk', Hstart, Hblk.
      now destruct (core.StringInSlice (txtOf tok) skipTags).
Qed.

(** X5.  Of the attributes of a token the walker uses the [alt] and [href]
    attributes of an [img] or [a] token and nothing else: with every other
    attribute removed, [class] among them, the walk makes the same calls. *)
Theorem only_folded_attributes_matter (f : core.File) (rawBytes : string)
    (toks : list html.Token) (offset : Z) :
  walkTokens f rawBytes (map strip toks) offset = walkTokens f rawBytes toks offset.
Proof.
  unfold walkTokens.
  destruct (loop_strip f (linesOf (ctx (start rawBytes)) offset) toks
              (start rawBytes) (start rawBytes) (sameButAttr_refl _))
    as (_ & _ & _ & Hcalls).
  exact Hcalls.
Qed.

(** X6.  An end tag, a self-closing tag or a doctype whose name is neither a
    skip tag nor [img] nor [a] has no effect on the walk: the stream without
    these tokens gives the same calls.  In particular the end tag of a
    heading or of a list item does not end the heading or the item. *)
Theorem inert_tokens_change_nothing (f : core.File) (rawBytes : string)
    (toks : list html.Token) (offset : Z) :
  walkTokens f rawBytes (filter (fun t => negb (inert t)) toks) offset =
  walkTokens f rawBytes toks offset.
Proof.
  unfold walkTokens.
  destruct (loop_inert f (linesOf (ctx (start rawBytes)) offset) toks
              (start rawBytes) (start rawBytes) (sameButAttr_refl _))
    as (_ & _ & _ & Hcalls).
  exact Hcalls.
Qed.

(** X7.  Which blocks are dispatched, of which kind and with which text, is
    decided by the rendered stream alone: the raw bytes and the offset bear
    on the context and on the line number of the calls only. *)
Theorem dispatch_decided_by_stream (f : core.File) (raw1 raw2 : string)
    (toks : list html.Token) (offset1 offset2 : Z) :
  map kindText (walkTokens f raw1 toks offset1) =
  map kindText (walkTokens f raw2 toks offset2).
Proof. unfold walkTokens. now apply kind_loop. Qed.

(** X8.  A stream without start tags (plain text, comments, stray end
    tags) dispatches its visible text tokens -- those with a text that is
    neither empty nor a skip tag name -- and nothing else, each as prose, in
    stream order. *)
Theorem stream_without_start_tags_is_prose (f : core.File) (rawBytes : string)
    (toks : list html.Token) (offset : Z) :
  live toks = true ->
  Forall (fun t => html.Type_ t <> html.StartTagToken) toks ->
  map kindText (walkTokens f rawBytes toks offset) =
  map (fun t => (None, txtOf t)) (filter visible toks).
Proof.
  intros Hlive Hno. unfold walkTokens.
  now rewrite loop_plain.
Qed.

End Simulation.

Section TrackerExtras.
Context {L : Lib}.

Lemma Split_cons (s : string) (sep : ascii) :
  exists h t, strings.Split s sep = h :: t.
Proof.
  induction s as [|c r IH]; cbn; [now exists "", []|].
  destruct (Ascii.eqb c sep); [now eexists _, _|].
  destruct IH as (h & t & ->). now eexists _, _.
Qed.

Lemma Split_join (a b : string) (sep : ascii) :
  strings.Split (a ++ String sep b)%string sep =
  strings.Split a sep ++ strings.Split b sep.
Proof.
  induction a as [|c r IH]; cbn.
  - now rewrite Ascii.eqb_refl.
  - destruct (Ascii.eqb c sep); [now rewrite IH|].
    rewrite IH. now destruct (Split_cons r sep) as (h & t & ->).
Qed.

(** X9.  A fragment of a text or comment token is consumed line by line: a
    fragment made of two non-empty parts joined by a line feed leaves the
    context that consuming the first part and then the second leaves. *)
Theorem updateCtx_line_feed (c a b : string) (tokt : html.TokenType) :
  a <> "" -> b <> "" ->
  updateCtx c (a ++ String strings.LF b)%string tokt =
  updateCtx (updateCtx c a tokt) b tokt.
Proof.
  intros Ha Hb. unfold updateCtx.
  apply String.eqb_neq in Ha, Hb. rewrite Ha, Hb.
  replace ((a ++ String strings.LF b)%string =? "")%string with false
    by (now destruct a).
  destruct ((tokt == html.TextToken) || (tokt == html.CommentToken));
    cbn [andb negb]; [|reflexivity].
  now rewrite Split_join, fold_left_app.
Qed.

(** X10.  [getAttribute] answers the value of the first attribute with the
    key, later attributes of the same key being ignored, and the empty
    string when no attribute has the key: a missing attribute and an
    attribute with an empty value are not told apart. *)
Theorem getAttribute_first_or_empty (ty : html.TokenType) (data key : string)
    (before after : list html.Attribute) (a : html.Attribute) :
  Forall (fun b => html.Key b <> key) before ->
  getAttribute {| html.Type_ := ty; html.Data := data; html.Attr := before |} key = "" /\
  (html.Key a = key ->
   getAttribute
     {| html.Type_ := ty; html.Data := data; html.Attr := before ++ a :: after |}
     key = html.Val a).
Proof.
  intros Hnone. unfold getAttribute. cbn [html.Attr].
  induction Hnone as [|b l Hb Hl IH]; cbn.
  - split; [reflexivity|]. intros ->. now rewrite String.eqb_refl.
  - apply String.eqb_neq in Hb. rewrite Hb. exact IH.
Qed.

Lemma updateCtx_empty (c : string) (tokt : html.TokenType) :
  updateCtx c "" tokt = c.
Proof. unfold updateCtx. cbn. now rewrite andb_false_r. Qed.

(** X11.  [clearElements] leaves the context as it is for every token that
    is not named [img] or [a], whatever its attributes, and for an [img] or
    [a] token whose [alt] and [href] attributes are all empty or missing. *)
Theorem clearElements_untouched (c : string) (tok : html.Token) :
  (html.Data tok <> "img" /\ html.Data tok <> "a") \/
  Forall (fun a => foldable a = true -> html.Val a = "") (html.Attr tok) ->
  clearElements c tok = c.
Proof.
  intros [[Himg Ha] | Hall]; unfold clearElements.
  - apply String.eqb_neq in Himg, Ha. now rewrite Himg, Ha.
  - destruct ((html.Data tok =? "img") || (html.Data tok =? "a"))%string;
      [|reflexivity].
    induction Hall as [|a l Ha Hl IH]; [reflexivity|].
    cbn [fold_left]. unfold foldable in Ha.
    destruct ((html.Key a =? "alt") || (html.Key a =? "href"))%string;
      [|exact IH].
    rewrite Ha by reflexivity. rewrite updateCtx_empty. exact IH.
Qed.

End TrackerExtras.

Section AdapterExtras.
Context {L : Lib} {W : World}.

(** X12.  A document that cannot be read is reported once, with its path,
    and nothing is dispatched for it, in each of the four formats; for
    reStructuredText and AsciiDoc whatever the renderer would do. *)
Theorem unreadable_document_reported_once (f : core.File)
    (python rst2html asciidoctor : string) (b : string) (e : core.error) :
  ReadFile (core.Path f) = (b, Some e) ->
  lintHTML f = {| dispatched := []; reported := [(e, core.Path f)] |} /\
  lintMarkdown f = {| dispatched := []; reported := [(e, core.Path f)] |} /\
  lintRST f python rst2html =
    {| dispatched := []; reported := [(e, core.Path f)] |} /\
  lintADoc f asciidoctor =
    {| dispatched := []; reported := [(e, core.Path f)] |}.
Proof.
  intros Hread. unfold lintHTML, lintMarkdown, lintRST, lintADoc.
  rewrite Hread. cbn. repeat split.
Qed.

(** X13.  A pass of any of the four adapters reports at most one failure,
    always with the path of the document, and a pass that reports a failure
    dispatches nothing: no block is ever dispatched beside a report. *)
Theorem pass_reports_or_dispatches (f : core.File)
    (python rst2html asciidoctor : string) :
  Forall (fun p =>
            length (reported p) <= 1 /\
            Forall (fun r => snd r = core.Path f) (reported p) /\
            (reported p <> [] -> dispatched p = []))
    [lintHTML f; lintMarkdown f; lintRST f python rst2html; lintADoc f asciidoctor].
Proof.
  unfold lintHTML, lintMarkdown, lintRST, lintADoc.
  destruct (ReadFile (core.Path f)) as [b [e|]]; cbn.
  - repeat constructor; intros _; reflexivity.
  - destruct (Run python (rst2html :: rstArgs) (reCodeBlock_ReplaceAll b "::"))
      as [out1 [e1|]];
    destruct (Run asciidoctor adocArgs b) as [out2 [e2|]]; cbn;
      repeat constructor; intros H; try reflexivity; now contradiction H.
Qed.

End AdapterExtras.

(** * The walker on plain text: examples *)

#[local] Existing Instance Plain.lib.

Lemma Plain_Substitute_miss (c s : string) :
  snd (Substitute c s) = false -> fst (Substitute c s) = c.
Proof.
  cbn. unfold Plain.Substitute. destruct (Plain.after s c); cbn; [discriminate|reflexivity].
Qed.

(** C1, the claim as written fails.  In [<pre><code>x</code>y</pre>] the
    text [y] lies inside the open [pre] element, and the walk dispatches it
    as prose: the end tag of the inner [code] has cleared the flag. *)
Lemma text_after_nested_skip_is_linted :
  insideSkip nestedSkip = true /\
  html.Type_ (text "y") = html.TextToken /\
  walkTokens page nestedSkipRaw (nestedSkip ++ [text "y"]) 0 =
  walkTokens page nestedSkipRaw nestedSkip 0 ++
  [lintProse page "</code>y</pre>" "y" 1 0].
Proof. repeat split. Qed.

(** In [<li><code>foo</code></li>] the text [foo] is met with the flag set
    and is dispatched all the same, as a list item: the heading and list
    branches of the walker do not look at the flag. *)
Example code_in_list_item_is_linted :
  insideSkip codeInItem = true /\
  inBlock (loop page 1 codeInItem (start codeInItemRaw)) = true /\
  walkTokens page codeInItemRaw (codeInItem ++ [text "foo"]) 0 =
  [lintText page (NewBlock codeInItemRaw "foo" "text.list.html") 1 0].
Proof. repeat split. Qed.

(** C1 as amended, at the text [x] of [<pre><code>x</code>y</pre>]. *)
Lemma flagged_text_consumed_not_prose_witness :
  live [startTag "pre"; startTag "code"] = true /\
  find (fun t => core.StringInSlice (txtOf t) skipTags)
    (rev [startTag "pre"; startTag "code"]) = Some (startTag "code") /\
  ctx (loop page 1 ([startTag "pre"; startTag "code"] ++ [text "x"])
         (start nestedSkipRaw)) = "</code>y</pre>" /\
  exists new,
    calls (loop page 1 ([startTag "pre"; startTag "code"] ++ [text "x"])
             (start nestedSkipRaw)) =
    calls (loop page 1 [startTag "pre"; startTag "code"] (start nestedSkipRaw))
    ++ new /\
    (forall c, In c new -> isProse c = false) /\
    (heading_MatchString "" = false -> "" <> "li" -> new = []).
Proof.
  split; [reflexivity|]. split; [reflexivity|].
  exact (flagged_text_consumed_not_prose page 1
           [startTag "pre"; startTag "code"] (startTag "code") (text "x")
           (start nestedSkipRaw) eq_refl eq_refl eq_refl eq_refl).
Defined.

(** C2, on a machine without the renderers. *)
Lemma renderer_failure_dispatches_nothing_witness :
  @ReadFile noRenderer (core.Path notes) = ("Plain words", None) /\
  @lintRST Plain.lib noRenderer notes "python" "rst2html.py" =
    {| dispatched := [];
       reported := [("executable file not found in $PATH", "notes.rst")] |} /\
  @lintADoc Plain.lib noRenderer notes "asciidoctor" =
    {| dispatched := [];
       reported := [("executable file not found in $PATH", "notes.rst")] |}.
Proof.
  split; [reflexivity|].
  destruct (@renderer_failure_dispatches_nothing Plain.lib noRenderer notes
              "python" "rst2html.py" "asciidoctor" "Plain words" ""
              "executable file not found in $PATH" eq_refl) as [Hrst Hadoc].
  split; [exact (Hrst eq_refl)|exact (Hadoc eq_refl)].
Defined.

(** C3, the claim as written fails.  In [<h1><b>x</b>y</h1>] the innermost
    element open at the text [y] is the heading [h1], and the walk
    dispatches [y] as prose: the walker's tag is still the [b] that was
    opened and closed before. *)
Lemma text_after_inline_in_heading_is_prose :
  innermost boldInHeading = Some "h1" /\
  heading_MatchString "h1" = true /\
  html.Type_ (text "y") = html.TextToken /\
  walkTokens page boldInHeadingRaw (boldInHeading ++ [text "y"]) 0 =
  walkTokens page boldInHeadingRaw boldInHeading 0 ++
  [lintProse page "</b>y</h1>" "y" 1 0].
Proof. repeat split. Qed.

(** C3 as amended, at the text [y] of [<h1><b>x</b>y</h1>]. *)
Lemma text_classified_by_last_start_tag_witness :
  live boldInHeading = true /\
  html.Type_ (text "y") = html.TextToken /\
  tag (loop page 1 boldInHeading (start boldInHeadingRaw)) = "b" /\
  calls (loop page 1 (boldInHeading ++ [text "y"]) (start boldInHeadingRaw)) =
    calls (loop page 1 boldInHeading (start boldInHeadingRaw)) ++
    [lintProse page "</b>y</h1>" "y" 1 0] /\
  (forall h, In h ["h1"; "h2"; "h3"; "h4"; "h5"; "h6"] ->
             heading_MatchString h = true).
Proof.
  split; [reflexivity|]. split; [reflexivity|].
  exact (text_classified_by_last_start_tag page 1 boldInHeading (text "y")
           (start boldInHeadingRaw) eq_refl eq_refl).
Defined.

(** C4, the claim as written fails.  The fragment of the two lines [a b] and
    [q] has no exact match in the buffer [a x b a b]; consuming its words
    [a], [b], [q] one by one would leave [ a b], but [updateCtx] consumes the
    line [a b] whole, at its match at the end of the buffer, and leaves
    nothing. *)
Lemma matching_line_is_consumed_whole :
  snd (Substitute "a x b a b" twoLines) = false /\
  Fields twoLines = ["a"; "b"; "q"] /\
  consumeWords "a x b a b" (Fields twoLines) = " a b" /\
  updateCtx "a x b a b" twoLines html.TextToken = "" /\
  updateCtx "a x b a b" twoLines html.TextToken <> consumeWhole "a x b a b" twoLines.
Proof. repeat split. discriminate. Qed.

(** C4 as amended, on the same fragment and buffer. *)
Lemma consume_by_line_then_words_witness :
  (forall c s, snd (Substitute c s) = false -> fst (Substitute c s) = c) /\
  twoLines <> "" /\
  updateCtx "a x b a b" twoLines html.TextToken = consumeLines "a x b a b" twoLines /\
  (forall sub f rawBytes toks offset,
     map shape (@walkTokens (withSubstitute Plain.lib sub) f rawBytes toks offset) =
     map shape (@walkTokens Plain.lib f rawBytes toks offset)).
Proof.
  split; [exact Plain_Substitute_miss|]. split; [discriminate|].
  apply (@consume_by_line_then_words Plain.lib "a x b a b" twoLines html.TextToken
           Plain_Substitute_miss (or_introl eq_refl)).
  discriminate.
Defined.

(** C5, after [<pre><code>x</code>]: the flag is clear inside the open
    [pre]. *)
Lemma skip_flag_single_boolean_witness :
  live nestedSkip = true /\
  insideSkip nestedSkip = true /\
  inBlock (loop page 1 nestedSkip (start nestedSkipRaw)) = false.
Proof.
  split; [reflexivity|]. split; [reflexivity|].
  exact (proj1 (skip_flag_single_boolean page 1 nestedSkip (start nestedSkipRaw)
                  eq_refl)).
Defined.

(** C6, at an image with an alternative text. *)
Lemma attributes_folded_not_dispatched_witness :
  live [startTag "p"] = true /\
  foldedValues logo = ["Vale logo"] /\
  ctx (loop page 1 ([startTag "p"] ++ [logo]) (start "<p><img alt=Vale logo/>")) =
    updateCtx "<p><img alt=Vale logo/>" "Vale logo" html.TextToken /\
  calls (loop page 1 ([startTag "p"] ++ [logo]) (start "<p><img alt=Vale logo/>")) =
    calls (loop page 1 [startTag "p"] (start "<p><img alt=Vale logo/>")) /\
  (forall rawBytes toks offset c,
     In c (walkTokens page rawBytes toks offset) ->
     exists t, In t toks /\ html.Type_ t = html.TextToken /\ callText c = txtOf t).
Proof.
  split; [reflexivity|]. split; [reflexivity|].
  exact (attributes_folded_not_dispatched page 1 [startTag "p"] logo
           (start "<p><img alt=Vale logo/>") eq_refl
           (or_intror eq_refl) (or_introl eq_refl)).
Defined.

(** C7, on a stream cut short after its first text. *)
Lemma walk_stops_at_error_witness :
  live [startTag "p"; text "Plain words"] = true /\
  html.Type_ html.eof = html.ErrorToken /\
  walkTokens page "<p>Plain words</p>"
    ([startTag "p"; text "Plain words"] ++ html.eof :: [text "lost"]) 0 =
  [lintProse page "<p>Plain words</p>" "Plain words" 1 0].
Proof.
  split; [reflexivity|]. split; [reflexivity|].
  exact (proj1 (walk_stops_at_error page "<p>Plain words</p>"
                  [startTag "p"; text "Plain words"] [text "lost"] html.eof 0
                  eq_refl eq_refl)).
Defined.

(** C8, on a document of three lines. *)
Lemma line_argument_constant_witness :
  (- 2 ^ 63 <= Z.of_nat (strings.Count (PrepText twoLines) strings.LF) + 1 + 1 < 2 ^ 63)%Z /\
  Forall (fun c => callLines c = 3%Z)
    (walkTokens page twoLines [text "a b"; endTag "p"; text "q"] 1).
Proof.
  assert (Hfit : (- 2 ^ 63 <=
                  Z.of_nat (strings.Count (PrepText twoLines) strings.LF) + 1 + 1
                  < 2 ^ 63)%Z) by (cbn; lia).
  split; [exact Hfit|].
  exact (proj2 (line_argument_constant page twoLines
                  [text "a b"; endTag "p"; text "q"] 1) Hfit).
Defined.

(** C9, at a paragraph that is the one word [code]. *)
Lemma skip_name_text_never_prose_witness :
  live [startTag "p"] = true /\
  In (txtOf (text " code ")) skipTags /\
  exists new,
    calls (loop page 1 ([startTag "p"] ++ [text " code "]) (start "<p> code </p>")) =
    calls (loop page 1 [startTag "p"] (start "<p> code </p>")) ++ new /\
    forall c, In c new -> isProse c = false.
Proof.
  assert (Hin : In (txtOf (text " code ")) skipTags) by (cbn; tauto).
  split; [reflexivity|]. split; [exact Hin|].
  exact (proj1 (skip_name_text_never_prose page 1 [startTag "p"] (text " code ")
                  (start "<p> code </p>") eq_refl eq_refl Hin)).
Defined.

(** C10, at a comment in a paragraph. *)
Lemma comment_consumed_not_dispatched_witness :
  live [startTag "p"] = true /\
  html.Type_ (comment " draft ") = html.CommentToken /\
  calls (loop page 1 ([startTag "p"] ++ [comment " draft "])
           (start "<p><!-- draft -->text</p>")) = [] /\
  ctx (loop page 1 ([startTag "p"] ++ [comment " draft "])
         (start "<p><!-- draft -->text</p>")) = " -->text</p>" /\
  (forall c txt, updateCtx c txt html.CommentToken = updateCtx c txt html.TextToken).
Proof.
  split; [reflexivity|]. split; [reflexivity|].
  exact (comment_consumed_not_dispatched page 1 [startTag "p"] (comment " draft ")
           (start "<p><!-- draft -->text</p>") eq_refl eq_refl).
Defined.

(** * The further properties on plain text *)

Lemma Plain_dropPrefix_shorter (p s r : string) :
  Plain.dropPrefix p s = Some r -> String.length r <= String.length s.
Proof.
  revert s. induction p as [|a p IH]; intros s H.
  - cbn in H. injection H as ->. lia.
  - destruct s as [|b s]; cbn in H; [discriminate|].
    destruct (Ascii.eqb a b); [|discriminate].
    apply IH in H. cbn. lia.
Qed.

Lemma Plain_after_shorter (sub s r : string) :
  Plain.after sub s = Some r -> String.length r <= String.length s.
Proof.
  induction s as [|b s IH]; cbn.
  - destruct (Plain.dropPrefix sub ""%string) eqn:E; [|discriminate].
    intros H. injection H as ->. now apply Plain_dropPrefix_shorter in E.
  - destruct (Plain.dropPrefix sub (String b s)) eqn:E.
    + intros H. injection H as ->. now apply Plain_dropPrefix_shorter in E.
    + intros H. apply IH in H. lia.
Qed.

Lemma Plain_Substitute_shrinks (n : nat) (c s : string) :
  String.length c <= n -> String.length (fst (Substitute c s)) <= n.
Proof.
  intros Hc. cbn. unfold Plain.Substitute.
  destruct (Plain.after s c) eqn:E; cbn; [|exact Hc].
  apply Plain_after_shorter in E. lia.
Qed.

(** X3, on [<pre><code>x</code>y</pre>]: the text in the skip element is
    consumed like the text after it. *)
Lemma context_consumes_every_token_witness :
  live (nestedSkip ++ [text "y"]) = true /\
  ctx (loop page 1 (nestedSkip ++ [text "y"]) (start nestedSkipRaw)) = "</pre>".
Proof.
  split; [reflexivity|].
  exact (proj1 (context_consumes_every_token page notes 1 2
                  (nestedSkip ++ [text "y"]) (start nestedSkipRaw)
                  (start nestedSkipRaw) eq_refl)).
Defined.

(** X4, with the length of the source as the bound. *)
Lemma contexts_come_from_Substitute_witness :
  (forall c s, String.length c <= 26 -> String.length (fst (Substitute c s)) <= 26) /\
  String.length (PrepText nestedSkipRaw) <= 26 /\
  Forall (fun c => String.length (callContext c) <= 26)
    (walkTokens page nestedSkipRaw (nestedSkip ++ [text "y"]) 0).
Proof.
  assert (Hraw : String.length (PrepText nestedSkipRaw) <= 26) by (cbn; lia).
  split; [exact (Plain_Substitute_shrinks 26)|]. split; [exact Hraw|].
  exact (contexts_come_from_Substitute (fun c => String.length c <= 26) page
           nestedSkipRaw (nestedSkip ++ [text "y"]) 0
           (Plain_Substitute_shrinks 26) Hraw).
Defined.

(** X8, on a stream of a text, a comment, a stray end tag and a blank. *)
Lemma stream_without_start_tags_is_prose_witness :
  live [text "Plain words"; comment "draft"; endTag "p"; text " "] = true /\
  map kindText
    (walkTokens page "Plain words"
       [text "Plain words"; comment "draft"; endTag "p"; text " "] 0) =
  [(None, "Plain words")].
Proof.
  assert (Hno : Forall (fun t => html.Type_ t <> html.StartTagToken)
                  [text "Plain words"; comment "draft"; endTag "p"; text " "])
    by (repeat constructor; discriminate).
  split; [reflexivity|].
  exact (stream_without_start_tags_is_prose page "Plain words"
           [text "Plain words"; comment "draft"; endTag "p"; text " "] 0
           eq_refl Hno).
Defined.

(** X9, on the fragment of the two lines [a b] and [q]. *)
Lemma updateCtx_line_feed_witness :
  "a b" <> "" /\ "q" <> "" /\
  updateCtx "a x b a b" twoLines html.TextToken =
  updateCtx (updateCtx "a x b a b" "a b" html.TextToken) "q" html.TextToken.
Proof.
  assert (Ha : "a b" <> "") by discriminate.
  assert (Hb : "q" <> "") by discriminate.
  split; [exact Ha|]. split; [exact Hb|].
  exact (updateCtx_line_feed "a x b a b" "a b" "q" html.TextToken Ha Hb).
Defined.

(** X10, at a link with two classes and a target. *)
Lemma getAttribute_first_or_empty_witness :
  Forall (fun b => html.Key b <> "href")
    [ {| html.Namespace := ""; html.Key := "class"; html.Val := "code" |} ] /\
  getAttribute link "href" = "docs" /\
  getAttribute
    {| html.Type_ := html.StartTagToken; html.Data := "a";
       html.Attr := [ {| html.Namespace := ""; html.Key := "class";
                         html.Val := "code" |} ] |} "href" = "".
Proof.
  assert (Hnot : Forall (fun b => html.Key b <> "href")
                   [ {| html.Namespace := ""; html.Key := "class";
                        html.Val := "code" |} ])
    by (repeat constructor; discriminate).
  split; [exact Hnot|].
  destruct (getAttribute_first_or_empty html.StartTagToken "a" "href"
              [ {| html.Namespace := ""; html.Key := "class"; html.Val := "code" |} ]
              [ {| html.Namespace := ""; html.Key := "class"; html.Val := "second" |} ]
              {| html.Namespace := ""; html.Key := "href"; html.Val := "docs" |}
              Hnot) as [Hnone Hfirst].
  split; [exact (Hfirst eq_refl)|exact Hnone].
Defined.

(** X11, at a paragraph tag with an alternative text. *)
Lemma clearElements_untouched_witness :
  "p" <> "img" /\ "p" <> "a" /\
  clearElements "Vale logo"
    {| html.Type_ := html.StartTagToken; html.Data := "p";
       html.Attr := [ {| html.Namespace := ""; html.Key := "alt";
                         html.Val := "Vale logo" |} ] |} = "Vale logo".
Proof.
  assert (Himg : "p" <> "img") by discriminate.
  assert (Ha : "p" <> "a") by discriminate.
  split; [exact Himg|]. split; [exact Ha|].
  exact (clearElements_untouched "Vale logo"
           {| html.Type_ := html.StartTagToken; html.Data := "p";
              html.Attr := [ {| html.Namespace := ""; html.Key := "alt";
                                html.Val := "Vale logo" |} ] |}
           (or_introl (conj Himg Ha))).
Defined.

(** X12, on a machine where the document is missing. *)
Lemma unreadable_document_reported_once_witness :
  @ReadFile noFile (core.Path notes) = ("", Some "no such file or directory") /\
  @lintHTML Plain.lib noFile notes =
    {| dispatched := []; reported := [("no such file or directory", "notes.rst")] |} /\
  @lintMarkdown Plain.lib noFile notes =
    {| dispatched := []; reported := [("no such file or directory", "notes.rst")] |} /\
  @lintRST Plain.lib noFile notes "python" "rst2html.py" =
    {| dispatched := []; reported := [("no such file or directory", "notes.rst")] |} /\
  @lintADoc Plain.lib noFile notes "asciidoctor" =
    {| dispatched := []; reported := [("no such file or directory", "notes.rst")] |}.
Proof.
  split; [reflexivity|].
  exact (@unreadable_document_reported_once Plain.lib noFile notes "python"
           "rst2html.py" "asciidoctor" "" "no such file or directory" eq_refl).
Defined.
